(** * The [altair-plot] Sphinx directive (doc/sphinxext/altair_ext/altairplot.py)

    A shallow embedding of the directive-processing pipeline of
    [altairplot.py]: the snippet executor [exec_then_eval], the directive
    [AltairPlotDirective.run] and the two visitors [html_visit_altair_plot]
    and [generic_visit_altair_plot].

    Python exceptions are values of [exn]; a call that may raise returns a
    [result]; code that mutates the build environment or the translator is a
    function from the state to a result and the state it leaves behind (an
    exception does not undo the mutations made before it). *)

From Stdlib Require Import String Ascii List ZArith Lia.
From Stdlib Require Import DecimalString DecimalNat DecimalZ DecimalPos DecimalFacts.
From stdpp Require Import base gmap strings list.

Set Warnings "-register-all".
Open Scope string_scope.
Open Scope list_scope.
Open Scope nat_scope.

(** ** Exceptions and results *)

Inductive exn :=
| SyntaxError
| IndexError
| AttributeError (attr : string)
| NameError (name : string)
| UnboundLocalError (name : string)
| ImportError (name : string)
| TypeError
| ValueError
| OSError
| SkipNode.

Inductive result (A : Type) :=
| Ok (a : A)
| Raise (e : exn).
Arguments Ok {A} a.
Arguments Raise {A} e.

#[global] Instance result_ret : MRet result := @Ok.
#[global] Instance result_bind : MBind result := λ A B f m,
  match m with
  | Ok a => f a
  | Raise e => Raise e
  end.

(** A computation over a mutable state [S]. *)
Definition M (S A : Type) : Type := S → result A * S.

#[global] Instance M_ret {S} : MRet (M S) := λ A a st, (Ok a, st).
#[global] Instance M_bind {S} : MBind (M S) := λ A B f m st,
  match m st with
  | (Ok a, st') => f a st'
  | (Raise e, st') => (Raise e, st')
  end.

Definition lift {S A} (r : result A) : M S A := λ st, (r, st).
Definition raise {S A} (e : exn) : M S A := λ st, (Raise e, st).

(** ** Strings, paths and numbers of the Python runtime *)

Definition LF : string := String "010" EmptyString.
Definition DQ : string := String "034" EmptyString.

(** [str(n)] and ["{}".format(n)] for an integer. *)
Definition str_nat (n : nat) : string := NilEmpty.string_of_uint (Nat.to_uint n).
Definition str_Z (n : Z) : string := NilEmpty.string_of_int (Z.to_int n).

(** [s.replace(old, new)] for one-character [old] and [new]. *)
Fixpoint str_replace (old new : ascii) (s : string) : string :=
  match s with
  | EmptyString => EmptyString
  | String c s' =>
      String (if Ascii.eqb c old then new else c) (str_replace old new s')
  end.

(** [sep.join(lines)]. *)
Definition str_join (sep : string) (lines : list string) : string :=
  String.concat sep lines.

(** [posixpath.basename]: what follows the last slash. *)
Fixpoint basename_go (acc p : string) : string :=
  match p with
  | EmptyString => acc
  | String c p' =>
      if Ascii.eqb c "/" then basename_go "" p'
      else basename_go (acc +:+ String c "") p'
  end.
Definition os_path_basename (p : string) : string := basename_go "" p.

(** [posixpath.dirname]: what precedes the last slash, without its
    trailing slashes unless it consists of slashes only. *)
Fixpoint head_go (seen acc p : string) : string :=
  match p with
  | EmptyString => acc
  | String c p' =>
      let seen' := seen +:+ String c "" in
      if Ascii.eqb c "/" then head_go seen' seen' p' else head_go seen' acc p'
  end.
Fixpoint all_slashes (s : string) : bool :=
  match s with
  | EmptyString => true
  | String c s' => Ascii.eqb c "/" && all_slashes s'
  end.
Fixpoint lstrip_slashes (s : string) : string :=
  match s with
  | String c s' => if Ascii.eqb c "/" then lstrip_slashes s' else s
  | EmptyString => EmptyString
  end.
Definition rstrip_slashes (s : string) : string :=
  String.rev (lstrip_slashes (String.rev s)).
Definition os_path_dirname (p : string) : string :=
  let head := head_go "" "" p in
  if all_slashes head then head else rstrip_slashes head.

Definition endswith_slash (s : string) : bool :=
  match String.rev s with
  | String c _ => Ascii.eqb c "/"
  | EmptyString => false
  end.

Definition startswith_slash (s : string) : bool :=
  match s with
  | String c _ => Ascii.eqb c "/"
  | EmptyString => false
  end.

Definition is_empty (s : string) : bool :=
  match s with
  | EmptyString => true
  | String _ _ => false
  end.

(** [posixpath.join(a, b)]. *)
Definition os_path_join (a b : string) : string :=
  if startswith_slash b then b
  else if is_empty a || endswith_slash a then a +:+ b
  else a +:+ "/" +:+ b.

(** The path of the entry [name] of the directory [dir]. *)
Definition path_under (dir name : string) : string :=
  dir +:+ (if is_empty dir || endswith_slash dir then "" else "/") +:+ name.

(** ** Specifications: JSON-like trees

    A Python string is the list of its code points.  A float is [NaN], an
    infinity, or a finite float given by a decimal numeral that denotes it,
    for a float of the program the numeral of its [repr]; the value of a
    numeral is the double nearest to it ([float_value]).  A mapping is kept
    as the list of its items in insertion order, the order in which
    [json.dumps] writes them. *)

Inductive pyfloat :=
| NaN
| Infinity (negative : bool)
| Finite (numeral : Decimal.decimal).

Inductive json :=
| JNull
| JBool (b : bool)
| JInt (n : Z)
| JFloat (x : pyfloat)
| JStr (s : list N)
| JList (l : list json)
| JDict (items : list (list N * json)).

(** The code points of a text of the development. *)
Definition codepoints (s : string) : list N :=
  map N_of_ascii (list_ascii_of_string s).

(** ** [json.dumps] *)

Definition hex_digit (n : N) : ascii :=
  match n with
  | 0 => "0" | 1 => "1" | 2 => "2" | 3 => "3" | 4 => "4" | 5 => "5"
  | 6 => "6" | 7 => "7" | 8 => "8" | 9 => "9" | 10 => "a" | 11 => "b"
  | 12 => "c" | 13 => "d" | 14 => "e" | _ => "f"
  end%N%char.

(** ['{0:04x}'.format(n)] for [n] below 65536. *)
Definition hex4 (n : N) : string :=
  String (hex_digit (n / 4096 mod 16))
    (String (hex_digit (n / 256 mod 16))
       (String (hex_digit (n / 16 mod 16))
          (String (hex_digit (n mod 16)) EmptyString)))%N.

(** The encoder of [json.dumps] with its default [ensure_ascii=True]:
    quote and backslash are escaped, the usual control characters have
    their short escapes, the other characters from space to tilde stand for
    themselves, every other code point below 65536 is written [\uXXXX] and
    a code point from 65536 as its pair of UTF-16 surrogates. *)
Definition encode_codepoint (cp : N) : string :=
  (if cp =? 34 then String "\" DQ
   else if cp =? 92 then "\\"
   else if cp =? 10 then "\n"
   else if cp =? 13 then "\r"
   else if cp =? 9 then "\t"
   else if cp =? 8 then "\b"
   else if cp =? 12 then "\f"
   else if (32 <=? cp) && (cp <=? 126) then String (ascii_of_N cp) EmptyString
   else if cp <? 65536 then "\u" +:+ hex4 cp
   else
     let n := cp - 65536 in
     "\u" +:+ hex4 (55296 + n / 1024) +:+ "\u" +:+ hex4 (56320 + n mod 1024))%N.

Fixpoint encode_chars (s : list N) : string :=
  match s with
  | [] => EmptyString
  | cp :: s' => encode_codepoint cp +:+ encode_chars s'
  end.

Definition encode_basestring (s : list N) : string :=
  DQ +:+ encode_chars s +:+ DQ.

(** [float.__repr__] of a finite float with the numeral [d], and the three
    names [json.dumps] has for the others. *)
Definition exponent_text (e : Decimal.int) : string :=
  match e with
  | Decimal.Pos d => "e+" +:+ NilEmpty.string_of_uint d
  | Decimal.Neg d => "e-" +:+ NilEmpty.string_of_uint d
  end.

Definition fraction_text (f : Decimal.uint) : string :=
  match f with
  | Decimal.Nil => EmptyString
  | _ => "." +:+ NilEmpty.string_of_uint f
  end.

Definition float_text (x : pyfloat) : string :=
  match x with
  | NaN => "NaN"
  | Infinity false => "Infinity"
  | Infinity true => "-Infinity"
  | Finite (Decimal.Decimal i f) =>
      NilEmpty.string_of_int i +:+ fraction_text f
  | Finite (Decimal.DecimalExp i f e) =>
      NilEmpty.string_of_int i +:+ fraction_text f +:+ exponent_text e
  end.

(** [json.dumps(v)]: the compact form, separators [", "] and [": "]. *)
Fixpoint json_dumps (v : json) : string :=
  match v with
  | JNull => "null"
  | JBool b => if b then "true" else "false"
  | JInt n => str_Z n
  | JFloat x => float_text x
  | JStr s => encode_basestring s
  | JList l => "[" +:+ str_join ", " (map json_dumps l) +:+ "]"
  | JDict items =>
      "{" +:+ str_join ", "
        (map (λ kv, encode_basestring (fst kv) +:+ ": " +:+ json_dumps (snd kv))
             items) +:+ "}"
  end.

Fixpoint spaces (n : nat) : string :=
  match n with
  | O => EmptyString
  | S n' => String " " (spaces n')
  end.

(** [json.dumps(v, indent=indent)], [level] containers deep. *)
Fixpoint json_dumps_indent (indent level : nat) (v : json) : string :=
  let newline k := LF +:+ spaces (indent * k) in
  match v with
  | JNull => "null"
  | JBool b => if b then "true" else "false"
  | JInt n => str_Z n
  | JFloat x => float_text x
  | JStr s => encode_basestring s
  | JList [] => "[]"
  | JList l =>
      "[" +:+ newline (S level)
      +:+ str_join ("," +:+ newline (S level))
            (map (json_dumps_indent indent (S level)) l)
      +:+ newline level +:+ "]"
  | JDict [] => "{}"
  | JDict items =>
      "{" +:+ newline (S level)
      +:+ str_join ("," +:+ newline (S level))
            (map (λ kv, encode_basestring (fst kv) +:+ ": "
                        +:+ json_dumps_indent indent (S level) (snd kv)) items)
      +:+ newline level +:+ "}"
  end.

(** ** [json.loads]

    The decoder, on a text of code points below 256, which every text that
    [json.dumps] writes is.  White space may surround every token; a number
    is an optional minus sign, then a zero or a digit from 1 to 9 followed
    by any digits, then optionally a point and one or more digits, then
    optionally e or E, an optional sign and one or more digits; it is an
    int without fraction and exponent and else the float of that numeral; [NaN],
    [Infinity] and [-Infinity] are accepted; in a string a control character
    must be escaped, and an escaped high surrogate followed by an escaped
    low surrogate is one code point; a key that occurs twice in an object
    keeps its first position and its last value, as in a Python [dict]. *)

Definition is_ws (c : ascii) : bool :=
  Ascii.eqb c " " || Ascii.eqb c "009" || Ascii.eqb c "010" || Ascii.eqb c "013".

Fixpoint skip_ws (s : string) : string :=
  match s with
  | EmptyString => EmptyString
  | String c s' => if is_ws c then skip_ws s' else s
  end.

Definition is_digit (c : ascii) : bool :=
  let n := nat_of_ascii c in (48 <=? n) && (n <=? 57).

Definition hex_value (c : ascii) : option N :=
  (let n := N_of_ascii c in
   if (48 <=? n) && (n <=? 57) then Some (n - 48)
   else if (97 <=? n) && (n <=? 102) then Some (n - 87)
   else if (65 <=? n) && (n <=? 70) then Some (n - 55)
   else None)%N.

Definition parse_hex4 (h1 h2 h3 h4 : ascii) : option N :=
  a ← hex_value h1; b ← hex_value h2; c ← hex_value h3; d ← hex_value h4;
  Some (4096 * a + 256 * b + 16 * c + d)%N.

Definition is_high_surrogate (n : N) : bool := ((55296 <=? n) && (n <=? 56319))%N.
Definition is_low_surrogate (n : N) : bool := ((56320 <=? n) && (n <=? 57343))%N.

Definition unescape (e : ascii) : option N :=
  (if Ascii.eqb e "034" then Some 34
   else if Ascii.eqb e "\" then Some 92
   else if Ascii.eqb e "/" then Some 47
   else if Ascii.eqb e "b" then Some 8
   else if Ascii.eqb e "f" then Some 12
   else if Ascii.eqb e "n" then Some 10
   else if Ascii.eqb e "r" then Some 13
   else if Ascii.eqb e "t" then Some 9
   else None)%N.

(** The code points of a string literal, from behind its opening quote up
    to its closing quote, and what follows the literal. *)
Fixpoint scan_string (s : string) : option (list N * string) :=
  match s with
  | EmptyString => None
  | String c s' =>
      if Ascii.eqb c "034" then Some ([], s')
      else if Ascii.eqb c "\" then
        match s' with
        | EmptyString => None
        | String e s'' =>
            if Ascii.eqb e "u" then
              match s'' with
              | String h1 (String h2 (String h3 (String h4 s4))) =>
                  uni ← parse_hex4 h1 h2 h3 h4;
                  match s4 with
                  | String b (String u (String g1 (String g2 (String g3
                      (String g4 s10))))) =>
                      if is_high_surrogate uni && Ascii.eqb b "\" && Ascii.eqb u "u"
                      then
                        uni2 ← parse_hex4 g1 g2 g3 g4;
                        if is_low_surrogate uni2 then
                          '(r, rest) ← scan_string s10;
                          Some ((65536 + ((uni - 55296) * 1024 + (uni2 - 56320)))%N
                                  :: r, rest)
                        else '(r, rest) ← scan_string s4; Some (uni :: r, rest)
                      else '(r, rest) ← scan_string s4; Some (uni :: r, rest)
                  | _ => '(r, rest) ← scan_string s4; Some (uni :: r, rest)
                  end
              | _ => None
              end
            else
              cp ← unescape e;
              '(r, rest) ← scan_string s'';
              Some (cp :: r, rest)
        end
      else if nat_of_ascii c <? 32 then None
      else '(r, rest) ← scan_string s'; Some (N_of_ascii c :: r, rest)
  end.

Fixpoint scan_digits (s : string) : string * string :=
  match s with
  | EmptyString => (EmptyString, EmptyString)
  | String c s' =>
      if is_digit c
      then let '(ds, rest) := scan_digits s' in (String c ds, rest)
      else (EmptyString, s)
  end.

(** The integer part: a zero, or a digit from 1 to 9 and any digits. *)
Definition scan_int_part (s : string) : option (Decimal.uint * string) :=
  match s with
  | EmptyString => None
  | String c s' =>
      if Ascii.eqb c "0" then Some (Decimal.D0 Decimal.Nil, s')
      else if is_digit c then
        let '(ds, rest) := scan_digits s in
        d ← NilEmpty.uint_of_string ds; Some (d, rest)
      else None
  end.

(** The optional fraction: a point and one or more digits. *)
Definition scan_fraction (s : string) : option Decimal.uint * string :=
  match s with
  | String c s' =>
      if Ascii.eqb c "." then
        let '(ds, rest) := scan_digits s' in
        if is_empty ds then (None, s)
        else
          match NilEmpty.uint_of_string ds with
          | Some d => (Some d, rest)
          | None => (None, s)
          end
      else (None, s)
  | EmptyString => (None, s)
  end.

(** The optional exponent: e or E, an optional sign, one or more digits. *)
Definition scan_exponent (s : string) : option Decimal.int * string :=
  match s with
  | String c s' =>
      if Ascii.eqb c "e" || Ascii.eqb c "E" then
        let '(negative, s'') :=
          match s' with
          | String g t =>
              if Ascii.eqb g "-" then (true, t)
              else if Ascii.eqb g "+" then (false, t)
              else (false, s')
          | EmptyString => (false, s')
          end in
        let '(ds, rest) := scan_digits s'' in
        if is_empty ds then (None, s)
        else
          match NilEmpty.uint_of_string ds with
          | Some d =>
              (Some (if negative then Decimal.Neg d else Decimal.Pos d), rest)
          | None => (None, s)
          end
      else (None, s)
  | EmptyString => (None, s)
  end.

Definition scan_number (s : string) : option (json * string) :=
  let '(negative, s1) :=
    match s with
    | String c s' => if Ascii.eqb c "-" then (true, s') else (false, s)
    | EmptyString => (false, s)
    end in
  '(d, r1) ← scan_int_part s1;
  let i := if negative then Decimal.Neg d else Decimal.Pos d in
  let '(f, r2) := scan_fraction r1 in
  let '(e, r3) := scan_exponent r2 in
  Some (match f, e with
        | None, None => JInt (Z.of_int i)
        | Some f, None => JFloat (Finite (Decimal.Decimal i f))
        | None, Some e => JFloat (Finite (Decimal.DecimalExp i Decimal.Nil e))
        | Some f, Some e => JFloat (Finite (Decimal.DecimalExp i f e))
        end, r3).

Fixpoint strip_prefix (p s : string) : option string :=
  match p, s with
  | EmptyString, _ => Some s
  | String a p', String b s' => if Ascii.eqb a b then strip_prefix p' s' else None
  | String _ _, EmptyString => None
  end.

(** [d[k] = v] on the items of a dict. *)
Fixpoint dict_set (k : list N) (v : json) (items : list (list N * json))
  : list (list N * json) :=
  match items with
  | [] => [(k, v)]
  | (k', v') :: items' =>
      if bool_decide (k = k') then (k, v) :: items'
      else (k', v') :: dict_set k v items'
  end.

Definition dict_of_pairs (pairs : list (list N * json)) : list (list N * json) :=
  fold_left (λ items kv, dict_set (fst kv) (snd kv) items) pairs [].

Fixpoint scan_value (fuel : nat) (s : string) : option (json * string) :=
  match fuel with
  | O => None
  | S fuel' =>
      match s with
      | EmptyString => None
      | String c rest =>
          if Ascii.eqb c "034" then
            '(str, rest') ← scan_string rest; Some (JStr str, rest')
          else if Ascii.eqb c "{" then
            match strip_prefix "}" (skip_ws rest) with
            | Some rest' => Some (JDict [], rest')
            | None =>
                '(pairs, rest') ← scan_members fuel' (skip_ws rest);
                Some (JDict (dict_of_pairs pairs), rest')
            end
          else if Ascii.eqb c "[" then
            match strip_prefix "]" (skip_ws rest) with
            | Some rest' => Some (JList [], rest')
            | None =>
                '(l, rest') ← scan_items fuel' (skip_ws rest);
                Some (JList l, rest')
            end
          else if Ascii.eqb c "n" then
            rest' ← strip_prefix "ull" rest; Some (JNull, rest')
          else if Ascii.eqb c "t" then
            rest' ← strip_prefix "rue" rest; Some (JBool true, rest')
          else if Ascii.eqb c "f" then
            rest' ← strip_prefix "alse" rest; Some (JBool false, rest')
          else
            match scan_number s with
            | Some r => Some r
            | None =>
                if Ascii.eqb c "N" then
                  rest' ← strip_prefix "aN" rest; Some (JFloat NaN, rest')
                else if Ascii.eqb c "I" then
                  rest' ← strip_prefix "nfinity" rest;
                  Some (JFloat (Infinity false), rest')
                else if Ascii.eqb c "-" then
                  rest' ← strip_prefix "Infinity" rest;
                  Some (JFloat (Infinity true), rest')
                else None
            end
      end
  end
with scan_items (fuel : nat) (s : string) : option (list json * string) :=
  match fuel with
  | O => None
  | S fuel' =>
      '(v, r) ← scan_value fuel' s;
      match skip_ws r with
      | String c r' =>
          if Ascii.eqb c "," then
            '(vs, r'') ← scan_items fuel' (skip_ws r'); Some (v :: vs, r'')
          else if Ascii.eqb c "]" then Some ([v], r')
          else None
      | EmptyString => None
      end
  end
with scan_members (fuel : nat) (s : string)
  : option (list (list N * json) * string) :=
  match fuel with
  | O => None
  | S fuel' =>
      r0 ← strip_prefix DQ s;
      '(k, r1) ← scan_string r0;
      r2 ← strip_prefix ":" (skip_ws r1);
      '(v, r3) ← scan_value fuel' (skip_ws r2);
      match skip_ws r3 with
      | String c r4 =>
          if Ascii.eqb c "," then
            '(kvs, r5) ← scan_members fuel' (skip_ws r4);
            Some ((k, v) :: kvs, r5)
          else if Ascii.eqb c "}" then Some ([(k, v)], r4)
          else None
      | EmptyString => None
      end
  end.

Definition json_loads (s : string) : result json :=
  match scan_value (String.length s) (skip_ws s) with
  | Some (v, rest) =>
      match skip_ws rest with
      | EmptyString => Ok v
      | _ => Raise ValueError
      end
  | None => Raise ValueError
  end.

(** ** Specifications that [json.dumps] and [json.loads] carry through

    A scalar value is a code point that is no surrogate.  The int part of
    a float's numeral is written without superfluous zeros, and the numeral
    has a fraction or an exponent, as every [repr] of a float has. *)

Definition is_scalar (cp : N) : bool :=
  ((cp <? 55296) || ((57344 <=? cp) && (cp <? 1114112)))%N.

Definition wf_uint (d : Decimal.uint) : bool :=
  match d with
  | Decimal.Nil => false
  | Decimal.D0 Decimal.Nil => true
  | Decimal.D0 _ => false
  | _ => true
  end.

Definition int_digits (i : Decimal.int) : Decimal.uint :=
  match i with
  | Decimal.Pos d => d
  | Decimal.Neg d => d
  end.

Definition nonempty (d : Decimal.uint) : bool :=
  match d with
  | Decimal.Nil => false
  | _ => true
  end.

Definition wf_float (x : pyfloat) : bool :=
  match x with
  | NaN | Infinity _ => true
  | Finite (Decimal.Decimal i f) => wf_uint (int_digits i) && nonempty f
  | Finite (Decimal.DecimalExp i f e) =>
      wf_uint (int_digits i) && nonempty (int_digits e)
  end.

(** A value of [json] is a Specification when no mapping in it has a key
    twice, its strings and keys hold scalar values only and its floats are
    written as [repr] writes them. *)
Fixpoint wf_json (v : json) : bool :=
  match v with
  | JFloat x => wf_float x
  | JStr s => forallb is_scalar s
  | JList l => forallb wf_json l
  | JDict items =>
      bool_decide (NoDup (map fst items))
      && forallb (λ kv, forallb is_scalar (fst kv) && wf_json (snd kv)) items
  | _ => true
  end.

Fixpoint nan_free (v : json) : bool :=
  match v with
  | JFloat NaN => false
  | JList l => forallb nan_free l
  | JDict items => forallb (λ kv, nan_free (snd kv)) items
  | _ => true
  end.

(** The number of nodes and items of a value; [scan_value] needs no more
    fuel than that on [json_dumps v]. *)
Fixpoint jsize (v : json) : nat :=
  match v with
  | JList l => S (list_sum (map (λ x, S (jsize x)) l))
  | JDict items => S (list_sum (map (λ kv, S (jsize (snd kv))) items))
  | _ => 1
  end.

(** The text of one member of an object, as [json_dumps] writes it. *)
Definition member_text (kv : list N * json) : string :=
  encode_basestring (fst kv) +:+ ": " +:+ json_dumps (snd kv).

(** The first character of an encoded value. *)
Definition starts_value (c : ascii) : bool :=
  Ascii.eqb c "n" || Ascii.eqb c "t" || Ascii.eqb c "f" || Ascii.eqb c "034"
  || Ascii.eqb c "[" || Ascii.eqb c "{" || Ascii.eqb c "-" || Ascii.eqb c "N"
  || Ascii.eqb c "I" || is_digit c.

(** Whether a text goes on like a number: with a digit, a point or an
    exponent mark. *)
Definition continues_number (s : string) : bool :=
  match s with
  | String c _ =>
      is_digit c || Ascii.eqb c "." || Ascii.eqb c "e" || Ascii.eqb c "E"
  | EmptyString => false
  end.

Definition starts_digit (s : string) : bool :=
  match s with
  | String c _ => is_digit c
  | EmptyString => false
  end.

(** [scan_value] reads [v] back from the front of any text that begins
    with [json_dumps v] and goes on with something that cannot belong to a
    number. *)
Definition roundtrips (v : json) : Prop :=
  wf_json v = true →
  ∀ fuel rest,
    jsize v ≤ fuel → continues_number rest = false →
    scan_value fuel (json_dumps v +:+ rest) = Some (v, rest).

(** ** Python's [==] on Specifications

    Numbers are compared by value, a bool being the int 0 or 1 and a finite
    float the double nearest to its numeral, ties going to the even
    mantissa; a numeral from 2^1024 rounds to an infinity; NaN is equal to
    nothing, not even to itself.  Strings are equal when their code points
    are, lists when they are equal item by item, dicts when they have the
    same keys with equal values, in whatever order. *)

Inductive number :=
| NotANumber
| Infinite (negative : bool)
| Dyadic (n e : Z).

Definition round_half_even (a b : Z) : Z :=
  (let q := a / b in
   let r := a mod b in
   if 2 * r <? b then q
   else if b <? 2 * r then q + 1
   else if Z.even q then q else q + 1)%Z.

(** The double nearest to [a / b], for positive [a] and [b]: [n * 2^e]
    with [n] below 2^53 and [e] from -1074, or nothing from 2^1024. *)
Definition nearest_double (a b : Z) : option (Z * Z) :=
  (let l0 := Z.log2 a - Z.log2 b in
   let below :=
     if 0 <=? l0 then a <? b * 2 ^ l0 else a * 2 ^ (- l0) <? b in
   let l := if below then l0 - 1 else l0 in
   let e := Z.max (l - 52) (-1074) in
   let n :=
     if 0 <=? e then round_half_even a (b * 2 ^ e)
     else round_half_even (a * 2 ^ (- e)) b in
   if (0 <=? e) && (2 ^ 1024 <=? n * 2 ^ e) then None else Some (n, e))%Z.

Definition float_value (x : pyfloat) : number :=
  match x with
  | NaN => NotANumber
  | Infinity negative => Infinite negative
  | Finite d =>
      let '(i, f, e) :=
        match d with
        | Decimal.Decimal i f => (i, f, 0%Z)
        | Decimal.DecimalExp i f e => (i, f, Z.of_int e)
        end in
      let negative := match i with Decimal.Pos _ => false | Decimal.Neg _ => true end in
      let mantissa := Z.of_uint (Decimal.app (int_digits i) f) in
      let exponent := (e - Z.of_nat (Decimal.nb_digits f))%Z in
      if (mantissa =? 0)%Z then Dyadic 0 0
      else
        let '(a, b) :=
          if (0 <=? exponent)%Z then ((mantissa * 10 ^ exponent)%Z, 1%Z)
          else (mantissa, (10 ^ (- exponent))%Z) in
        match nearest_double a b with
        | Some (n, e2) => Dyadic (if negative then (- n)%Z else n) e2
        | None => Infinite negative
        end
  end.

Definition number_eqb (x y : number) : bool :=
  match x, y with
  | Infinite a, Infinite b => Bool.eqb a b
  | Dyadic n1 e1, Dyadic n2 e2 =>
      (let m := Z.min e1 e2 in n1 * 2 ^ (e1 - m) =? n2 * 2 ^ (e2 - m))%Z
  | _, _ => false
  end.

Definition number_of (v : json) : option number :=
  match v with
  | JBool b => Some (Dyadic (if b then 1 else 0) 0)
  | JInt n => Some (Dyadic n 0)
  | JFloat x => Some (float_value x)
  | _ => None
  end.

(** [d.get(k)] on the items of a dict. *)
Fixpoint dict_get (k : list N) (items : list (list N * json)) : option json :=
  match items with
  | [] => None
  | (k', v) :: items' => if bool_decide (k = k') then Some v else dict_get k items'
  end.

Fixpoint py_eq (a b : json) : bool :=
  match a, b with
  | JNull, JNull => true
  | JStr s, JStr t => bool_decide (s = t)
  | JList l, JList m =>
      (fix all (l m : list json) : bool :=
         match l, m with
         | [], [] => true
         | x :: l', y :: m' => py_eq x y && all l' m'
         | _, _ => false
         end) l m
  | JDict i, JDict j =>
      (length i =? length j)
      && (fix all (i : list (list N * json)) : bool :=
            match i with
            | [] => true
            | (k, v) :: i' =>
                match dict_get k j with
                | Some w => py_eq v w
                | None => false
                end && all i'
            end) i
  | _, _ =>
      match number_of a, number_of b with
      | Some x, Some y => number_eqb x y
      | _, _ => false
      end
  end.

(** ** Python's [ast]: the statements of a module body

    Every kind of statement node is listed, those of Python 2 ([Print],
    [Exec], [TryExcept], [TryFinally]) included, with the fields that matter
    here.  Six kinds carry a field [value]: the expression statement, the
    three assignments, the type alias and [return]; for an annotated
    assignment and for [return] the field holds [None] when the source
    gives no value.  [ast.parse] builds what the grammar allows, so
    [return], [break] and [continue] can stand in a module body: that they
    may not is found by [compile]. *)

Inductive expr :=
| Num (n : Z)
| Str (s : string)
| Name (id : string)
| Attribute (value : expr) (attr : string)
| Call (func : expr) (args : list expr).

Inductive stmt :=
| FunctionDef (name : string) (args : list string) (body : list stmt)
| AsyncFunctionDef (name : string) (args : list string) (body : list stmt)
| ClassDef (name : string) (bases : list expr) (body : list stmt)
| Return (value : option expr)
| Delete (targets : list expr)
| Assign (targets : list expr) (value : expr)
| TypeAlias (name : expr) (value : expr)
| AugAssign (target : expr) (op : string) (value : expr)
| AnnAssign (target annotation : expr) (value : option expr)
| Print (dest : option expr) (values : list expr)
| For (target iter : expr) (body orelse : list stmt)
| AsyncFor (target iter : expr) (body orelse : list stmt)
| While (test : expr) (body orelse : list stmt)
| If (test : expr) (body orelse : list stmt)
| With (items : list expr) (body : list stmt)
| AsyncWith (items : list expr) (body : list stmt)
| Match (subject : expr) (cases : list stmt)
| RaiseStmt (exc cause : option expr)
| Try (body handlers orelse finalbody : list stmt)
| TryStar (body handlers orelse finalbody : list stmt)
| TryExcept (body handlers orelse : list stmt)
| TryFinally (body finalbody : list stmt)
| Assert (test : expr) (msg : option expr)
| Import (names : list string)
| ImportFrom (module : string) (names : list string)
| Exec (body : expr)
| Global (names : list string)
| Nonlocal (names : list string)
| Expr (value : expr)
| Pass
| Break
| Continue.

(** ** Document-tree nodes *)

(** [nodes.literal_block(rawsource, text)] with its [language] attribute. *)
Record literal_block := {
  rawsource : string;
  text : string;
  language : string;
}.

(** The attributes of an [altair_plot] node; [alt] is present only when the
    directive had the option. *)
Record altair_plot := {
  target_id : string;
  div_id : string;
  source : literal_block;
  relpath : string;
  rst_source : string;
  rst_lineno : nat;
  spec : json;
  alt : option string;
}.

Inductive node :=
| Target (ids : list string)
| LiteralBlock (b : literal_block)
| AltairPlot (p : altair_plot).

(** ** The directive and the build environment *)

(** [self.options] maps the name of each option given to its converted
    value: the text for [alt], nothing worth reading for the three flags. *)
Record Directive := {
  options : gmap string string;
  content : list string;
  lineno : nat;
  document_source : string;
}.

Record BuildEnvironment := {
  srcdir : string;
  temp_data : gmap string nat;
}.

(** Modelled from the spec: [env.new_serialno] belongs to the host
    framework and is not in the repository.  The spec has it allocate, from
    build-wide state, a serial number that grows by one with every
    allocation; here the counter of a category starts at zero and is kept
    under the key [category + 'serialno']. *)
Definition new_serialno (category : string) : M BuildEnvironment nat :=
  λ env,
    let key := category +:+ "serialno" in
    let cur := default 0 (temp_data env !! key) in
    (Ok cur, {| srcdir := srcdir env; temp_data := <[key := cur + 1]> (temp_data env) |}).

Definition has_key (k : string) (d : gmap string string) : bool :=
  match d !! k with
  | Some _ => true
  | None => false
  end.

(** Reading a local variable that an untaken branch was to assign. *)
Definition load_local {A} (name : string) (v : option A) : result A :=
  match v with
  | Some a => Ok a
  | None => Raise (UnboundLocalError name)
  end.

(** The name [specjson] of line 79: [run] assigns [spec_json], the module
    binds no [specjson] and neither do the builtins, so the read raises. *)
Definition specjson : result string := Raise (NameError "specjson").

(** ** The host: CPython, the charting library and [os.path.relpath]

    The interpreter and the libraries the extension calls are not part of
    the repository; they are the fields of [Host].  [exec_code block g l] is
    [exec(compile(block, '<string>', mode='exec'), g, l)] and returns the two
    namespaces as the call leaves them; [eval_code e g l] is
    [eval(compile(ast.Expression(e), '<string>', mode='eval'), g, l)];
    [to_dict v] is [v.to_dict()]. *)

Class Host := {
  value : Type;
  ast_parse : string → result (list stmt);
  exec_code : list stmt → gmap string value → gmap string value →
              result (gmap string value * gmap string value);
  eval_code : expr → gmap string value → gmap string value → result value;
  to_dict : value → result json;
  os_path_relpath : string → string → result string;
}.

Section Extension.
Context `{H : Host}.

(** ** Snippet executor *)

(** [block.body.pop()]: the last statement and the list without it. *)
Definition body_pop (body : list stmt) : result (stmt * list stmt) :=
  match last body with
  | Some s => Ok (s, removelast body)
  | None => Raise IndexError
  end.

(** The attribute read [.value] on a statement node. *)
Definition stmt_value (s : stmt) : result (option expr) :=
  match s with
  | Expr v => Ok (Some v)
  | Assign _ v => Ok (Some v)
  | AugAssign _ _ v => Ok (Some v)
  | TypeAlias _ v => Ok (Some v)
  | AnnAssign _ _ v => Ok v
  | Return v => Ok v
  | _ => Raise (AttributeError "value")
  end.

(** [compile(ast.Expression(body), '<string>', mode='eval')] up to the
    check that the field [body] holds a node: on [None] it raises a value
    error.  What [compile] does with an expression is part of
    [eval_code]. *)
Definition compile_expression (body : option expr) : result expr :=
  match body with
  | Some e => Ok e
  | None => Raise ValueError
  end.

Definition exec_then_eval (code : string) : result value :=
  body ← ast_parse code;
  '(s, block) ← body_pop body;
  last ← stmt_value s;
  let globals : gmap string value := ∅ in
  let locals : gmap string value := ∅ in
  '(globals, locals) ← exec_code block globals locals;
  last ← compile_expression last;
  eval_code last globals locals.

(** ** The directive *)

Definition run (self : Directive) : M BuildEnvironment (list node) :=
  let show_code := negb (has_key "hide-code" (options self)) in
  let show_json := has_key "show-json" (options self) in
  let code_below := has_key "code-below" (options self) in
  let code := str_join LF (content self) in
  chart ← lift (exec_then_eval code);
  spec ← lift (to_dict chart);
  let source_literal :=
    if show_code
    then Some {| rawsource := code; text := code; language := "python" |}
    else None in
  json_literal ←
    (if show_json
     then
       let spec_json := json_dumps_indent 2 0 spec in
       specjson ← lift specjson;
       mret (Some {| rawsource := specjson; text := specjson; language := "json" |})
     else mret None);
  let rst_source := document_source self in
  let rst_dir := os_path_dirname rst_source in
  let rst_filename := os_path_basename rst_source in
  let rst_base := str_replace "." "-" rst_filename in
  serialno ← new_serialno "altair-plot";
  let target_id := rst_base +:+ "-altair-source-" +:+ str_nat serialno in
  let div_id := rst_base +:+ "-altair-plot-" +:+ str_nat serialno in
  let target_node := Target [target_id] in
  source ← lift (load_local "source_literal" source_literal);
  srcdir ← (λ env, (Ok (srcdir env), env));
  relpath ← lift (os_path_relpath rst_dir srcdir);
  let plot_node := AltairPlot {|
    target_id := target_id;
    div_id := div_id;
    source := source;
    relpath := relpath;
    rst_source := rst_source;
    rst_lineno := lineno self;
    spec := spec;
    alt := options self !! "alt";
  |} in
  let result := [target_node] in
  let result := if code_below then result ++ [plot_node] else result in
  result ←
    (if show_code
     then b ← lift (load_local "source_literal" source_literal);
          mret (result ++ [LiteralBlock b])
     else mret result);
  result ←
    (if show_json
     then b ← lift (load_local "json_literal" json_literal);
          mret (result ++ [LiteralBlock b])
     else mret result);
  let result := if negb code_below then result ++ [plot_node] else result in
  mret result.

End Extension.

(** ** The operating system

    The file system is not part of the repository either.  [exists_at] is
    [os.path.exists], [makedirs_at] is [os.makedirs] and [write_at p data]
    is [with open(p, 'w') as f: f.write(data)]; the last two return whether
    they succeeded, together with the file system as they leave it, and a
    failure is an [OSError] in Python.  [read_at p] is the content of the
    regular file that the path [p] names, if it names one, and [isdir_at p]
    tells whether [p] names a directory.  All that is assumed is that a file
    holds what was written to it when the write succeeded. *)

Class OS := {
  fs : Type;
  exists_at : string → fs → bool;
  isdir_at : string → fs → bool;
  read_at : string → fs → option string;
  makedirs_at : string → fs → bool * fs;
  write_at : string → string → fs → bool * fs;
  write_read : ∀ p data w w',
    write_at p data w = (true, w') → read_at p w' = Some data;
}.

(** [VGL_TEMPLATE.render(div_id=.., filename=..)]: the template keeps its
    leading newline and loses its last one. *)
Definition VGL_TEMPLATE (div_id filename : string) : string :=
  LF +:+ "<div id=" +:+ DQ +:+ div_id +:+ DQ +:+ ">" +:+ LF
  +:+ "<script src=" +:+ DQ +:+ "https://d3js.org/d3.v3.min.js" +:+ DQ
  +:+ "></script>" +:+ LF
  +:+ "<script src=" +:+ DQ +:+ "https://vega.github.io/vega/vega.js" +:+ DQ
  +:+ "></script>" +:+ LF
  +:+ "<script src=" +:+ DQ +:+ "https://vega.github.io/vega-lite/vega-lite.js"
  +:+ DQ +:+ "></script>" +:+ LF
  +:+ "<script src=" +:+ DQ
  +:+ "https://vega.github.io/vega-editor/vendor/vega-embed.js" +:+ DQ
  +:+ " charset=" +:+ DQ +:+ "utf-8" +:+ DQ +:+ "></script>" +:+ LF
  +:+ "<script>" +:+ LF
  +:+ "  vg.embed(" +:+ DQ +:+ "#" +:+ div_id +:+ DQ +:+ ", " +:+ DQ
  +:+ filename +:+ DQ +:+ ", function(error, result) {});" +:+ LF
  +:+ "</script>" +:+ LF
  +:+ "</div>".

(** [fmt % arg] for one string argument: [%s] takes the argument, [%%] is
    a percent sign. *)
Fixpoint percent_format (fmt : string) (arg : option string) : result string :=
  match fmt with
  | EmptyString =>
      match arg with
      | Some _ => Raise TypeError
      | None => Ok EmptyString
      end
  | String "%" (String "s" rest) =>
      match arg with
      | Some a => r ← percent_format rest None; Ok (a +:+ r)
      | None => Raise TypeError
      end
  | String "%" (String "%" rest) =>
      r ← percent_format rest arg; Ok (String "%" r)
  | String "%" _ => Raise ValueError
  | String c rest => r ← percent_format rest arg; Ok (String c r)
  end.

(** ** Visitors *)

Section Visitors.
Context `{O : OS}.

(** The translator visiting the tree, with the two pieces of the world it
    reads and writes: the message catalogue behind [sphinx.locale._] and
    the file system. *)
Record Translator := {
  builder_outdir : string;
  body : list string;
  catalog : gmap string string;
  filesystem : fs;
}.

(** The regular files and the directories, by path. *)
Definition fs_files (tr : Translator) : string → option string :=
  λ p, read_at p (filesystem tr).
Definition fs_dirs (tr : Translator) : string → bool :=
  λ p, isdir_at p (filesystem tr).

(** [_(msg)]: the translation of [msg], or [msg] where the catalogue has
    none. *)
Definition gettext (msg : string) : M Translator string :=
  λ tr, (Ok (default msg (catalog tr !! msg)), tr).

Definition body_append (s : string) : M Translator unit :=
  λ tr, (Ok (), {| builder_outdir := builder_outdir tr; body := body tr ++ [s];
                   catalog := catalog tr; filesystem := filesystem tr |}).

(** A call of the operating system: what it leaves is the file system of
    the translator, and its failure is raised. *)
Definition os_call (call : fs → bool * fs) : M Translator unit :=
  λ tr,
    let '(done, w) := call (filesystem tr) in
    (if done then Ok () else Raise OSError,
     {| builder_outdir := builder_outdir tr; body := body tr;
        catalog := catalog tr; filesystem := w |}).

Definition os_path_exists (p : string) : M Translator bool :=
  λ tr, (Ok (exists_at p (filesystem tr)), tr).

Definition os_makedirs (p : string) : M Translator unit :=
  os_call (makedirs_at p).

(** [with open(p, 'w') as f: f.write(data)]. *)
Definition write_file (p data : string) : M Translator unit :=
  os_call (write_at p data).

Definition html_visit_altair_plot (node : altair_plot) : M Translator unit :=
  let embed_spec :=
    json_dumps (JDict [(codepoints "mode", JStr (codepoints "vega-lite"));
                       (codepoints "spec", spec node)]) in
  outdir ← (λ tr, (Ok (builder_outdir tr), tr));
  let dest_dir := os_path_join outdir (relpath node) in
  present ← os_path_exists dest_dir;
  _ ← (if negb present then os_makedirs dest_dir else mret ());
  let filename := div_id node +:+ ".vl.json" in
  let dest_path := os_path_join dest_dir filename in
  _ ← write_file dest_path embed_spec;
  let html := VGL_TEMPLATE (div_id node) filename in
  _ ← body_append html;
  raise SkipNode.

Definition generic_visit_altair_plot (node : altair_plot) : M Translator unit :=
  _ ← match alt node with
      | Some a =>
          fmt ← gettext "[ graph: %s ]";
          s ← lift (percent_format fmt (Some a));
          body_append s
      | None =>
          s ← gettext "[ graph ]";
          body_append s
      end;
  raise SkipNode.

Definition latex_visit_altair_plot := generic_visit_altair_plot.
Definition texinfo_visit_altair_plot := generic_visit_altair_plot.
Definition text_visit_altair_plot := generic_visit_altair_plot.
Definition man_visit_altair_plot := generic_visit_altair_plot.

End Visitors.

(** ** A miniature host for the worked examples

    [MiniPy] stands in for CPython and the charting library on a small
    fragment: one statement per line, which is [pass], [return],
    [return EXPR], [from M import N], [NAME = EXPR] or [EXPR]; [return] is
    parsed and refused by [exec], as [compile] refuses it in a module; an
    expression is a name, a decimal number, a
    string in single quotes or a call [NAME(EXPR)].  The module [altair]
    exports [Chart]; [Chart('url')] is the only object with a [to_dict]
    method, which returns [{"data": {"url": 'url'}}]. *)

Module MiniPy.

Inductive pyvalue :=
| VInt (n : Z)
| VStr (s : string)
| VChartClass
| VChart (url : string).

Fixpoint split_lines (cur s : string) : list string :=
  match s with
  | EmptyString => [cur]
  | String c s' =>
      if Ascii.eqb c "010" then cur :: split_lines "" s'
      else split_lines (cur +:+ String c "") s'
  end.

Definition is_letter (c : ascii) : bool :=
  let n := nat_of_ascii c in
  ((65 <=? n)%nat && (n <=? 90)%nat) || ((97 <=? n)%nat && (n <=? 122)%nat)
  || (n =? 95)%nat.

Fixpoint forall_chars (p : ascii → bool) (s : string) : bool :=
  match s with
  | EmptyString => true
  | String c s' => p c && forall_chars p s'
  end.

Definition is_ident (s : string) : bool :=
  match s with
  | EmptyString => false
  | String c s' =>
      is_letter c && forall_chars (λ c, is_letter c || is_digit c) s'
  end.

Definition is_number (s : string) : bool :=
  match s with
  | EmptyString => false
  | _ => forall_chars is_digit s
  end.

Definition is_quoted (s : string) : bool :=
  match s with
  | String "'" s' =>
      match String.rev s' with
      | String "'" inner =>
          forall_chars (λ c, negb (Ascii.eqb c "'") && negb (Ascii.eqb c "\")) inner
      | _ => false
      end
  | _ => false
  end.

Fixpoint parse_expr (fuel : nat) (s : string) : result expr :=
  match fuel with
  | O => Raise SyntaxError
  | S fuel' =>
      if is_ident s then Ok (Name s)
      else if is_number s then
        match NilEmpty.uint_of_string s with
        | Some d => Ok (Num (Z.of_uint d))
        | None => Raise SyntaxError
        end
      else if is_quoted s then Ok (Str (substring 1 (String.length s - 2) s))
      else
        match String.index 0 "(" s, String.rev s with
        | Some i, String ")" _ =>
            let f := substring 0 i s in
            let inner := substring (i + 1) (String.length s - i - 2) s in
            if is_ident f then
              match inner with
              | EmptyString => Ok (Call (Name f) [])
              | _ => a ← parse_expr fuel' inner; Ok (Call (Name f) [a])
              end
            else Raise SyntaxError
        | _, _ => Raise SyntaxError
        end
  end.

Definition parse_stmt (line : string) : result stmt :=
  if String.eqb line "pass" then Ok Pass
  else if String.eqb line "return" then Ok (Return None)
  else if String.prefix "return " line then
    let rest := substring 7 (String.length line - 7) line in
    e ← parse_expr (String.length rest) rest; Ok (Return (Some e))
  else if String.prefix "from " line then
    let rest := substring 5 (String.length line - 5) line in
    match String.index 0 " import " rest with
    | Some i =>
        let m := substring 0 i rest in
        let n := substring (i + 8) (String.length rest - i - 8) rest in
        if is_ident m && is_ident n then Ok (ImportFrom m [n])
        else Raise SyntaxError
    | None => Raise SyntaxError
    end
  else
    match String.index 0 " = " line with
    | Some i =>
        let lhs := substring 0 i line in
        let rhs := substring (i + 3) (String.length line - i - 3) line in
        if is_ident lhs
        then e ← parse_expr (String.length rhs) rhs; Ok (Assign [Name lhs] e)
        else Raise SyntaxError
    | None => e ← parse_expr (String.length line) line; Ok (Expr e)
    end.

Fixpoint parse_lines (lines : list string) : result (list stmt) :=
  match lines with
  | [] => Ok []
  | EmptyString :: rest => parse_lines rest
  | line :: rest =>
      s ← parse_stmt line; ss ← parse_lines rest; Ok (s :: ss)
  end.

Definition parse (code : string) : result (list stmt) :=
  parse_lines (split_lines "" code).

Definition lookup_name (id : string) (globals locals : gmap string pyvalue)
  : result pyvalue :=
  match locals !! id with
  | Some v => Ok v
  | None =>
      match globals !! id with
      | Some v => Ok v
      | None => Raise (NameError id)
      end
  end.

Fixpoint eval (e : expr) (globals locals : gmap string pyvalue)
  : result pyvalue :=
  match e with
  | Num n => Ok (VInt n)
  | Str s => Ok (VStr s)
  | Name id => lookup_name id globals locals
  | Attribute v a => _ ← eval v globals locals; Raise (AttributeError a)
  | Call f args =>
      fv ← eval f globals locals;
      argvs ← (fix eval_args (l : list expr) : result (list pyvalue) :=
                 match l with
                 | [] => Ok []
                 | a :: l' =>
                     v ← eval a globals locals; vs ← eval_args l'; Ok (v :: vs)
                 end) args;
      match fv, argvs with
      | VChartClass, [VStr url] => Ok (VChart url)
      | _, _ => Raise TypeError
      end
  end.

Definition exec_stmt (s : stmt) (globals locals : gmap string pyvalue)
  : result (gmap string pyvalue * gmap string pyvalue) :=
  match s with
  | Pass => Ok (globals, locals)
  | Expr e => _ ← eval e globals locals; Ok (globals, locals)
  | Assign [Name id] e =>
      v ← eval e globals locals; Ok (globals, <[id := v]> locals)
  | ImportFrom "altair" ["Chart"] => Ok (globals, <["Chart" := VChartClass]> locals)
  | ImportFrom m _ => Raise (ImportError m)
  | Import _ => Raise (ImportError "")
  | _ => Raise SyntaxError
  end.

Fixpoint exec (block : list stmt) (globals locals : gmap string pyvalue)
  : result (gmap string pyvalue * gmap string pyvalue) :=
  match block with
  | [] => Ok (globals, locals)
  | s :: block' =>
      '(g, l) ← exec_stmt s globals locals; exec block' g l
  end.

Definition chart_to_dict (v : pyvalue) : result json :=
  match v with
  | VChart url =>
      Ok (JDict [(codepoints "data",
                  JDict [(codepoints "url", JStr (codepoints url))])])
  | _ => Raise (AttributeError "to_dict")
  end.

(** [os.path.relpath(path, start)] for a [path] at or below [start]. *)
Definition relpath_below (path start : string) : result string :=
  if String.eqb path start then Ok "."
  else if String.prefix (start +:+ "/") path
  then Ok (substring (String.length start + 1)
                     (String.length path - String.length start - 1) path)
  else Raise ValueError.

Definition host : Host := {|
  value := pyvalue;
  ast_parse := parse;
  exec_code := exec;
  eval_code := eval;
  to_dict := chart_to_dict;
  os_path_relpath := relpath_below;
|}.

End MiniPy.

(** ** A miniature file system for the worked examples

    [MemFS] keeps the directories and the regular files by the text of
    their paths, which are absolute and written without [.], [..] and
    doubled slashes.  [os.makedirs] creates the directory and the ancestors
    that are missing, and fails where the path exists or an ancestor is a
    regular file; a write fails where the path is a directory or its parent
    is none. *)

Module MemFS.

Record state := {
  dirs : gset string;
  files : gmap string string;
}.

(** The ancestors of a path, the nearest first. *)
Fixpoint ancestors (fuel : nat) (p : string) : list string :=
  match fuel with
  | O => []
  | S fuel' =>
      let d := os_path_dirname p in
      if is_empty d || String.eqb d p then [] else d :: ancestors fuel' d
  end.

Definition is_dir (p : string) (w : state) : bool := bool_decide (p ∈ dirs w).

Definition is_file (p : string) (w : state) : bool :=
  bool_decide (is_Some (files w !! p)).

Definition path_exists (p : string) (w : state) : bool :=
  is_dir p w || is_file p w.

Definition makedirs (p : string) (w : state) : bool * state :=
  let above := ancestors (String.length p) p in
  if path_exists p w || existsb (λ a, is_file a w) above then (false, w)
  else (true, {| dirs := list_to_set (p :: above) ∪ dirs w; files := files w |}).

Definition write (p data : string) (w : state) : bool * state :=
  if negb (is_dir p w) && is_dir (os_path_dirname p) w
  then (true, {| dirs := dirs w; files := <[p := data]> (files w) |})
  else (false, w).

Lemma write_then_read p data w w' :
  write p data w = (true, w') → files w' !! p = Some data.
Proof.
  unfold write. destruct (negb (is_dir p w) && is_dir (os_path_dirname p) w);
    [|discriminate].
  intros [= <-]. apply lookup_insert_eq.
Qed.

Definition os : OS := {|
  fs := state;
  exists_at := path_exists;
  isdir_at := is_dir;
  read_at := λ p w, files w !! p;
  makedirs_at := makedirs;
  write_at := write;
  write_read := write_then_read;
|}.

(** The file system with the root directory and nothing else. *)
Definition root : state := {| dirs := {[ "/" ]}; files := ∅ |}.

End MemFS.

(** ** A build: the directives of one run, in document order

    Every directive runs in the environment its predecessor left; a
    directive that raises is reported and the build goes on. *)
Fixpoint build (H : Host) (ds : list Directive) (env : BuildEnvironment)
  : list (result (list node)) * BuildEnvironment :=
  match ds with
  | [] => ([], env)
  | d :: ds' =>
      let '(r, env') := run d env in
      let '(rs, env'') := build H ds' env' in
      (r :: rs, env'')
  end.

(** ** What [run] computes, spelled out *)

Definition code_of (self : Directive) : string := str_join LF (content self).

Definition rst_base_of (self : Directive) : string :=
  str_replace "." "-" (os_path_basename (document_source self)).

Definition serial_key : string := "altair-plotserialno".

(** The serial number the next [new_serialno('altair-plot')] returns. *)
Definition next_serial (env : BuildEnvironment) : nat :=
  default 0 (temp_data env !! serial_key).

Definition with_serial (env : BuildEnvironment) (n : nat) : BuildEnvironment :=
  {| srcdir := srcdir env; temp_data := <[serial_key := n]> (temp_data env) |}.

Definition source_listing (self : Directive) : literal_block :=
  {| rawsource := code_of self; text := code_of self; language := "python" |}.

Definition plot_of (self : Directive) (serialno : nat) (rel : string) (s : json)
  : altair_plot :=
  {| target_id := rst_base_of self +:+ "-altair-source-" +:+ str_nat serialno;
     div_id := rst_base_of self +:+ "-altair-plot-" +:+ str_nat serialno;
     source := source_listing self;
     relpath := rel;
     rst_source := document_source self;
     rst_lineno := lineno self;
     spec := s;
     alt := options self !! "alt" |}.

Definition is_plot (n : node) : bool :=
  match n with AltairPlot _ => true | _ => false end.
Definition is_target (n : node) : bool :=
  match n with Target _ => true | _ => false end.
Definition is_listing (n : node) : bool :=
  match n with LiteralBlock _ => true | _ => false end.

(** The two orders in which the plot node can stand among the listings:
    directly after the anchor, or after the listings. *)
Definition plot_then_listings (anchor plot : node) (listings : list node)
  : list node := anchor :: plot :: listings.
Definition listings_then_plot (anchor plot : node) (listings : list node)
  : list node := anchor :: listings ++ [plot].

(** The order for a given [code-below], in the words of the documentation:
    without the flag the plot follows the anchor, with it the plot follows
    the listings. *)
Definition documented_order (code_below : bool) :=
  if code_below then listings_then_plot else plot_then_listings.

(** What follows the last occurrence of [c] in [s], if [c] occurs. *)
Fixpoint after_last (c : ascii) (s : string) : option string :=
  match s with
  | EmptyString => None
  | String x s' =>
      match after_last c s' with
      | Some t => Some t
      | None => if Ascii.eqb x c then Some s' else None
      end
  end.

(** ** Worked examples *)

Definition env0 : BuildEnvironment := {| srcdir := "/docs"; temp_data := ∅ |}.

Definition intro_rst (opts : gmap string string) (lines : list string)
  : Directive :=
  {| options := opts; content := lines; lineno := 12;
     document_source := "/docs/tut/intro.rst" |}.

Definition chart_lines : list string :=
  ["from altair import Chart"; "chart = Chart('cars.json')"; "chart"].

Definition assign_lines : list string :=
  ["from altair import Chart"; "chart = Chart('cars.json')"].

Definition pass_lines : list string :=
  ["from altair import Chart"; "pass"].

Definition return_lines : list string :=
  ["from altair import Chart"; "return"].

Definition cars_spec : json :=
  JDict [(codepoints "data",
          JDict [(codepoints "url", JStr (codepoints "cars.json"))])].

(** A specification with a float that is not a number. *)
Definition nan_spec : json := JDict [(codepoints "x", JFloat NaN)].

Definition hide_code : gmap string string := {[ "hide-code" := "" ]}.
Definition show_json : gmap string string := {[ "show-json" := "" ]}.
Definition code_below : gmap string string := {[ "code-below" := "" ]}.

(** The nodes of [intro_rst] with the source [lines], as serial number [n]. *)
Definition intro_plot (opts : gmap string string) (lines : list string) (n : nat)
  : altair_plot := plot_of (intro_rst opts lines) n "tut" cars_spec.
Definition intro_anchor (lines : list string) (n : nat) : node :=
  Target [target_id (intro_plot ∅ lines n)].
Definition intro_listing (lines : list string) : node :=
  LiteralBlock (source_listing (intro_rst ∅ lines)).

Definition cars_node (a : option string) : altair_plot :=
  {| target_id := "intro-rst-altair-source-0";
     div_id := "intro-rst-altair-plot-0";
     source := source_listing (intro_rst ∅ chart_lines);
     relpath := "tut";
     rst_source := "/docs/tut/intro.rst";
     rst_lineno := 12;
     spec := cars_spec;
     alt := a |}.

Definition nan_node : altair_plot :=
  {| target_id := "intro-rst-altair-source-0";
     div_id := "intro-rst-altair-plot-0";
     source := source_listing (intro_rst ∅ chart_lines);
     relpath := "tut";
     rst_source := "/docs/tut/intro.rst";
     rst_lineno := 12;
     spec := nan_spec;
     alt := None |}.

(** A translator that has appended nothing yet, without translations. *)
Definition fresh_translator (outdir : string) (w : MemFS.state)
  : @Translator MemFS.os := @Build_Translator MemFS.os outdir [] ∅ w.

Definition html_translator : @Translator MemFS.os :=
  fresh_translator "/build/html" MemFS.root.

Definition text_translator : @Translator MemFS.os :=
  fresh_translator "/build/text" MemFS.root.

(** A translator whose output directory holds a regular file by the name
    of the directory [tut]. *)
Definition blocked_translator : @Translator MemFS.os :=
  fresh_translator "/build/html"
    {| MemFS.dirs := {[ "/"; "/build"; "/build/html" ]};
       MemFS.files := {[ "/build/html/tut" := "notes" ]} |}.

(** * Properties *)

(** ** Artifacts and visits *)

(** Whether the character [c] occurs in [s]. *)
Fixpoint contains (c : ascii) (s : string) : bool :=
  match s with
  | EmptyString => false
  | String x s' => Ascii.eqb x c || contains c s'
  end.

(** The payload, the directory and the path of the artifact of a node. *)
Definition embed_payload (node : altair_plot) : json :=
  JDict [(codepoints "mode", JStr (codepoints "vega-lite"));
         (codepoints "spec", spec node)].
Definition artifact_name (node : altair_plot) : string :=
  div_id node +:+ ".vl.json".
Definition artifact_dir `{O : OS} (tr : Translator) (node : altair_plot)
  : string := os_path_join (builder_outdir tr) (relpath node).
Definition artifact_path `{O : OS} (tr : Translator) (node : altair_plot)
  : string := os_path_join (artifact_dir tr node) (artifact_name node).

(** The translator after the visit of a node. *)
Definition visited `{O : OS} (visit : altair_plot → M Translator unit)
    (node : altair_plot) (tr : Translator) : Translator :=
  (visit node tr).2.

Definition chart_nodes : list node :=
  [intro_anchor chart_lines 0; intro_listing chart_lines;
   AltairPlot (intro_plot ∅ chart_lines 0)].

(** *** The decoder inverts the encoder *)

Lemma app_String x (a b : string) : String x a +:+ b = String x (a +:+ b).
Proof. reflexivity. Qed.

Lemma string_app_assoc (a b c : string) : (a +:+ b) +:+ c = a +:+ (b +:+ c).
Proof.
  induction a as [|x a IH]; [done|].
  rewrite !app_String. by f_equal.
Qed.

Lemma hex_value_hex_digit n : (n < 16)%N → hex_value (hex_digit n) = Some n.
Proof.
  intros Hn. destruct n as [|p]; [reflexivity|].
  do 5 (destruct p as [p|p|]; try reflexivity); lia.
Qed.

Lemma parse_hex4_hex4 n :
  (n < 65536)%N →
  parse_hex4 (hex_digit (n / 4096 mod 16)) (hex_digit (n / 256 mod 16))
             (hex_digit (n / 16 mod 16)) (hex_digit (n mod 16)) = Some n.
Proof.
  intros Hn. unfold parse_hex4.
  rewrite !hex_value_hex_digit by (apply N.mod_lt; lia).
  cbn [mbind option_bind]. f_equal.
  assert (n / 4096 = n / 256 / 16)%N as E1
    by (rewrite N.Div0.div_div; reflexivity).
  assert (n / 256 = n / 16 / 16)%N as E2
    by (rewrite N.Div0.div_div; reflexivity).
  pose proof (N.div_mod' (n / 256) 16).
  pose proof (N.div_mod' (n / 16) 16).
  pose proof (N.div_mod' n 16).
  pose proof (N.div_mod' (n / 4096) 16).
  assert (n / 4096 / 16 = 0)%N
    by (rewrite N.Div0.div_div; apply N.div_small; simpl; lia).
  rewrite <- E1 in *. rewrite <- E2 in *. lia.
Qed.

Lemma scan_string_escape_u h1 h2 h3 h4 s4 :
  scan_string (String "\" (String "u" (String h1 (String h2 (String h3
                 (String h4 s4))))))
  = uni ← parse_hex4 h1 h2 h3 h4;
    match s4 with
    | String b (String u (String g1 (String g2 (String g3 (String g4 s10))))) =>
        if is_high_surrogate uni && Ascii.eqb b "\" && Ascii.eqb u "u"
        then
          uni2 ← parse_hex4 g1 g2 g3 g4;
          if is_low_surrogate uni2 then
            '(r, rest) ← scan_string s10;
            Some ((65536 + ((uni - 55296) * 1024 + (uni2 - 56320)))%N :: r, rest)
          else '(r, rest) ← scan_string s4; Some (uni :: r, rest)
        else '(r, rest) ← scan_string s4; Some (uni :: r, rest)
    | _ => '(r, rest) ← scan_string s4; Some (uni :: r, rest)
    end.
Proof. reflexivity. Qed.

Lemma scan_string_single h1 h2 h3 h4 t uni :
  parse_hex4 h1 h2 h3 h4 = Some uni → is_high_surrogate uni = false →
  scan_string (String "\" (String "u" (String h1 (String h2 (String h3
                 (String h4 t))))))
  = '(r, rest) ← scan_string t; Some (uni :: r, rest).
Proof.
  intros Hparse Hhigh. rewrite scan_string_escape_u, Hparse.
  cbn [mbind option_bind]. rewrite Hhigh.
  by destruct t as [|b [|u [|g1 [|g2 [|g3 [|g4 s10]]]]]].
Qed.

Lemma scan_string_pair h1 h2 h3 h4 g1 g2 g3 g4 t hi lo :
  parse_hex4 h1 h2 h3 h4 = Some hi → parse_hex4 g1 g2 g3 g4 = Some lo →
  is_high_surrogate hi = true → is_low_surrogate lo = true →
  scan_string (String "\" (String "u" (String h1 (String h2 (String h3
                 (String h4 (String "\" (String "u" (String g1 (String g2
                   (String g3 (String g4 t))))))))))))
  = '(r, rest) ← scan_string t;
    Some ((65536 + ((hi - 55296) * 1024 + (lo - 56320)))%N :: r, rest).
Proof.
  intros Hhi Hlo Hhigh Hlow. rewrite scan_string_escape_u, Hhi.
  cbn [mbind option_bind]. rewrite Hhigh.
  cbn [Ascii.eqb Bool.eqb andb]. rewrite Hlo.
  cbn [mbind option_bind]. by rewrite Hlow.
Qed.

Lemma scan_string_ascii c t :
  scan_string (encode_codepoint (N_of_ascii c) +:+ t)
  = '(r, rest) ← scan_string t; Some (N_of_ascii c :: r, rest).
Proof.
  destruct c as [[] [] [] [] [] [] [] []];
    first [ reflexivity | by apply scan_string_single ].
Qed.

Lemma scan_string_codepoint cp t :
  is_scalar cp = true →
  scan_string (encode_codepoint cp +:+ t)
  = '(r, rest) ← scan_string t; Some (cp :: r, rest).
Proof.
  intros Hcp.
  destruct (N.ltb_spec cp 256) as [Hsmall|Hbig].
  { rewrite <- (N_ascii_embedding cp Hsmall). apply scan_string_ascii. }
  unfold encode_codepoint.
  repeat (match goal with
          | |- context [(cp =? ?k)%N] => destruct (N.eqb_spec cp k); [lia|]
          end).
  destruct (N.leb_spec cp 126); [lia|]. rewrite andb_false_r.
  unfold is_scalar in Hcp.
  destruct (N.ltb_spec cp 65536) as [Hbmp|Hastral].
  - change (scan_string (_ +:+ t))
      with (scan_string
              (String "\" (String "u" (String (hex_digit (cp / 4096 mod 16))
                 (String (hex_digit (cp / 256 mod 16))
                    (String (hex_digit (cp / 16 mod 16))
                       (String (hex_digit (cp mod 16)) t))))))).
    apply scan_string_single; [by apply parse_hex4_hex4|].
    unfold is_high_surrogate.
    destruct (N.ltb_spec cp 55296), (N.leb_spec 57344 cp),
      (N.leb_spec 55296 cp), (N.leb_spec cp 56319);
      simpl in *; try done; lia.
  - assert (cp < 1114112)%N as Hmax.
    { destruct (N.ltb_spec cp 55296), (N.leb_spec 57344 cp),
        (N.ltb_spec cp 1114112); simpl in *; try done; lia. }
    cbv zeta.
    pose proof (N.div_mod' (cp - 65536) 1024) as Hdiv.
    pose proof (N.mod_lt (cp - 65536) 1024 ltac:(lia)) as Hmod.
    revert Hdiv Hmod.
    generalize ((cp - 65536) / 1024)%N ((cp - 65536) mod 1024)%N.
    intros q r Hdiv Hmod.
    set (hi := (55296 + q)%N).
    set (lo := (56320 + r)%N).
    assert (55296 <= hi <= 56319)%N as Hhi by lia.
    assert (56320 <= lo <= 57343)%N as Hlo by lia.
    change (scan_string (_ +:+ t))
      with (scan_string
              (String "\" (String "u" (String (hex_digit (hi / 4096 mod 16))
                 (String (hex_digit (hi / 256 mod 16))
                    (String (hex_digit (hi / 16 mod 16))
                       (String (hex_digit (hi mod 16))
              (String "\" (String "u" (String (hex_digit (lo / 4096 mod 16))
                 (String (hex_digit (lo / 256 mod 16))
                    (String (hex_digit (lo / 16 mod 16))
                       (String (hex_digit (lo mod 16)) t))))))))))))).
    rewrite (scan_string_pair
               (hex_digit (hi / 4096 mod 16)) (hex_digit (hi / 256 mod 16))
               (hex_digit (hi / 16 mod 16)) (hex_digit (hi mod 16))
               (hex_digit (lo / 4096 mod 16)) (hex_digit (lo / 256 mod 16))
               (hex_digit (lo / 16 mod 16)) (hex_digit (lo mod 16)) t hi lo);
      [| apply parse_hex4_hex4; lia | apply parse_hex4_hex4; lia
       | unfold is_high_surrogate;
         destruct (N.leb_spec 55296 hi), (N.leb_spec hi 56319); simpl; lia || done
       | unfold is_low_surrogate;
         destruct (N.leb_spec 56320 lo), (N.leb_spec lo 57343); simpl; lia || done ].
    assert ((65536 + ((hi - 55296) * 1024 + (lo - 56320)))%N = cp) as ->; [|done].
    lia.
Qed.

Lemma scan_string_encode s rest :
  forallb is_scalar s = true →
  scan_string (encode_chars s +:+ String "034" rest) = Some (s, rest).
Proof.
  induction s as [|c s IH]; intros Hs.
  - reflexivity.
  - simpl in Hs. apply andb_true_iff in Hs as [Hc Hs].
    change (encode_chars (c :: s)) with (encode_codepoint c +:+ encode_chars s).
    rewrite string_app_assoc, scan_string_codepoint, IH by done. reflexivity.
Qed.

Lemma scan_digits_uint d rest :
  starts_digit rest = false →
  scan_digits (NilEmpty.string_of_uint d +:+ rest)
  = (NilEmpty.string_of_uint d, rest).
Proof.
  intros Hrest. induction d; simpl NilEmpty.string_of_uint;
    rewrite ?app_String; simpl; rewrite ?IHd; try reflexivity.
  destruct rest as [|c rest]; [reflexivity|].
  change ("" +:+ String c rest) with (String c rest). simpl.
  simpl in Hrest. by rewrite Hrest.
Qed.

Lemma uint_text_head d rest :
  nonempty d = true →
  ∃ c t, NilEmpty.string_of_uint d +:+ rest = String c t ∧ is_digit c = true.
Proof.
  intros Hnil. destruct d; [done|..]; simpl; rewrite app_String;
    eexists _, _; split; reflexivity.
Qed.

Lemma is_empty_uint d : nonempty d = true → is_empty (NilEmpty.string_of_uint d) = false.
Proof. by destruct d. Qed.

Lemma scan_int_part_uint d rest :
  wf_uint d = true → starts_digit rest = false →
  scan_int_part (NilEmpty.string_of_uint d +:+ rest) = Some (d, rest).
Proof.
  intros Hwf Hrest.
  pose proof (scan_digits_uint d rest Hrest) as Hscan.
  pose proof (NilEmpty.usu d) as Hu.
  destruct d as [|d|d|d|d|d|d|d|d|d|d]; try done.
  1: { by destruct d. }
  all: simpl NilEmpty.string_of_uint in *; rewrite app_String in *;
    unfold scan_int_part; cbn [Ascii.eqb Bool.eqb];
    change (is_digit _) with true; cbv iota; rewrite Hscan;
    by rewrite Hu.
Qed.

Lemma scan_fraction_some f rest :
  nonempty f = true → starts_digit rest = false →
  scan_fraction (fraction_text f +:+ rest) = (Some f, rest).
Proof.
  intros Hf Hrest.
  assert (fraction_text f +:+ rest
          = String "." (NilEmpty.string_of_uint f +:+ rest)) as ->
    by (by destruct f).
  unfold scan_fraction. cbn [Ascii.eqb Bool.eqb].
  rewrite scan_digits_uint by done.
  by rewrite is_empty_uint, NilEmpty.usu.
Qed.

Lemma scan_fraction_none rest :
  continues_number rest = false → scan_fraction rest = (None, rest).
Proof.
  destruct rest as [|c rest]; [done|]. simpl. intros Hc.
  apply orb_false_iff in Hc as [Hc _]. apply orb_false_iff in Hc as [Hc _].
  apply orb_false_iff in Hc as [_ Hc]. by rewrite Hc.
Qed.

Lemma scan_fraction_exponent e rest :
  scan_fraction (exponent_text e +:+ rest) = (None, exponent_text e +:+ rest).
Proof. by destruct e. Qed.

Lemma scan_exponent_some e rest :
  nonempty (int_digits e) = true → starts_digit rest = false →
  scan_exponent (exponent_text e +:+ rest) = (Some e, rest).
Proof.
  intros He Hrest. destruct e as [d|d]; simpl in He.
  - change (exponent_text (Decimal.Pos d) +:+ rest)
      with (String "e" (String "+" (NilEmpty.string_of_uint d +:+ rest))).
    unfold scan_exponent. cbn [Ascii.eqb Bool.eqb orb].
    rewrite scan_digits_uint by done.
    by rewrite is_empty_uint, NilEmpty.usu.
  - change (exponent_text (Decimal.Neg d) +:+ rest)
      with (String "e" (String "-" (NilEmpty.string_of_uint d +:+ rest))).
    unfold scan_exponent. cbn [Ascii.eqb Bool.eqb orb].
    rewrite scan_digits_uint by done.
    by rewrite is_empty_uint, NilEmpty.usu.
Qed.

Lemma scan_exponent_none rest :
  continues_number rest = false → scan_exponent rest = (None, rest).
Proof.
  destruct rest as [|c rest]; [done|]. simpl. intros Hc.
  apply orb_false_iff in Hc as [Hc HE]. apply orb_false_iff in Hc as [_ He].
  by rewrite He, HE.
Qed.

Lemma int_text_head i rest :
  wf_uint (int_digits i) = true →
  ∃ c t, NilEmpty.string_of_int i +:+ rest = String c t
         ∧ Ascii.eqb c "-" || is_digit c = true.
Proof.
  intros Hwf. destruct i as [d|d]; simpl in Hwf.
  - destruct (uint_text_head d rest) as (c & t & Heq & Hc); [by destruct d|].
    exists c, t. split; [done|]. by rewrite Hc, orb_true_r.
  - eexists _, _; split; reflexivity.
Qed.

Lemma scan_number_int_text i rest :
  wf_uint (int_digits i) = true → starts_digit rest = false →
  scan_number (NilEmpty.string_of_int i +:+ rest)
  = let '(f, r2) := scan_fraction rest in
    let '(e, r3) := scan_exponent r2 in
    Some (match f, e with
          | None, None => JInt (Z.of_int i)
          | Some f, None => JFloat (Finite (Decimal.Decimal i f))
          | None, Some e => JFloat (Finite (Decimal.DecimalExp i Decimal.Nil e))
          | Some f, Some e => JFloat (Finite (Decimal.DecimalExp i f e))
          end, r3).
Proof.
  intros Hwf Hrest. destruct i as [d|d]; simpl in Hwf.
  - pose proof (scan_int_part_uint d rest Hwf Hrest) as Hscan.
    destruct (uint_text_head d rest) as (c & t & Heq & Hc); [by destruct d|].
    change (NilEmpty.string_of_int (Decimal.Pos d))
      with (NilEmpty.string_of_uint d).
    rewrite Heq in *. unfold scan_number.
    assert (Ascii.eqb c "-" = false) as ->.
    { by destruct (Ascii.eqb_spec c "-") as [->|]. }
    by rewrite Hscan.
  - change (NilEmpty.string_of_int (Decimal.Neg d))
      with (String "-" (NilEmpty.string_of_uint d)).
    rewrite app_String. unfold scan_number.
    cbn [Ascii.eqb Bool.eqb]. by rewrite scan_int_part_uint.
Qed.

Lemma continues_number_digit rest :
  continues_number rest = false → starts_digit rest = false.
Proof.
  destruct rest as [|c rest]; [done|]. simpl. intros Hc.
  apply orb_false_iff in Hc as [Hc _]. apply orb_false_iff in Hc as [Hc _].
  by apply orb_false_iff in Hc as [Hc _].
Qed.

Lemma pos_to_uint_head p d : Pos.to_uint p ≠ Decimal.D0 d.
Proof.
  intros Heq.
  assert (Decimal.unorm (Pos.to_uint p) = Pos.to_uint p) as Hnorm.
  { rewrite <- DecimalPos.Unsigned.to_of, DecimalPos.Unsigned.of_to. reflexivity. }
  rewrite Heq in Hnorm. unfold Decimal.unorm in Hnorm.
  destruct (Decimal.nzhead (Decimal.D0 d)) eqn:Hhead; try discriminate Hnorm.
  - injection Hnorm as <-.
    by apply (DecimalPos.Unsigned.to_uint_nonzero p).
  - by apply DecimalFacts.nzhead_nonzero in Hhead.
Qed.

Lemma wf_uint_pos p : wf_uint (Pos.to_uint p) = true.
Proof.
  pose proof (pos_to_uint_head p) as Hhead.
  pose proof (DecimalPos.Unsigned.to_uint_nonnil p) as Hnil.
  destruct (Pos.to_uint p) as [|d|d|d|d|d|d|d|d|d|d]; try done.
  by destruct (Hhead d).
Qed.

Lemma wf_uint_to_int n : wf_uint (int_digits (Z.to_int n)) = true.
Proof. destruct n as [|p|p]; [done|apply wf_uint_pos..]. Qed.

Lemma scan_number_str_Z n rest :
  continues_number rest = false →
  scan_number (str_Z n +:+ rest) = Some (JInt n, rest).
Proof.
  intros Hrest. unfold str_Z.
  rewrite scan_number_int_text
    by (apply wf_uint_to_int || by apply continues_number_digit).
  rewrite scan_fraction_none, scan_exponent_none by done.
  by rewrite DecimalZ.of_to.
Qed.

Lemma starts_digit_fraction f rest :
  nonempty f = true → starts_digit (fraction_text f +:+ rest) = false.
Proof. by destruct f. Qed.

Lemma starts_digit_exponent e rest :
  starts_digit (exponent_text e +:+ rest) = false.
Proof. by destruct e. Qed.

Lemma scan_number_float d rest :
  wf_float (Finite d) = true → continues_number rest = false →
  scan_number (float_text (Finite d) +:+ rest) = Some (JFloat (Finite d), rest).
Proof.
  intros Hwf Hrest. pose proof (continues_number_digit rest Hrest) as Hdigit.
  destruct d as [i f|i f e]; simpl in Hwf;
    apply andb_true_iff in Hwf as [Hi Hf]; cbn [float_text].
  - rewrite string_app_assoc.
    rewrite scan_number_int_text by (done || by apply starts_digit_fraction).
    by rewrite scan_fraction_some, scan_exponent_none.
  - rewrite !string_app_assoc.
    destruct (nonempty f) eqn:Hne.
    + rewrite scan_number_int_text by (done || by apply starts_digit_fraction).
      rewrite scan_fraction_some by (done || apply starts_digit_exponent).
      by rewrite scan_exponent_some.
    + assert (f = Decimal.Nil) as -> by (by destruct f).
      change (fraction_text Decimal.Nil +:+ ?X) with X.
      rewrite scan_number_int_text by (done || apply starts_digit_exponent).
      rewrite scan_fraction_exponent. by rewrite scan_exponent_some.
Qed.

Lemma json_ind' (P : json → Prop) :
  P JNull → (∀ b, P (JBool b)) → (∀ n, P (JInt n)) → (∀ x, P (JFloat x)) →
  (∀ s, P (JStr s)) →
  (∀ l, Forall P l → P (JList l)) →
  (∀ items, Forall (λ kv, P (snd kv)) items → P (JDict items)) →
  ∀ v, P v.
Proof.
  intros Hnull Hbool Hint Hfloat Hstr Hlist Hdict.
  fix IH 1. intros [|b|n|x|s|l|items].
  - exact Hnull.
  - apply Hbool.
  - apply Hint.
  - apply Hfloat.
  - apply Hstr.
  - apply Hlist. revert l. fix IHl 1.
    intros [|x l]; constructor; [apply IH|apply IHl].
  - apply Hdict. revert items. fix IHl 1.
    intros [|[k x] items]; constructor; [apply IH|apply IHl].
Qed.

Lemma float_text_head x rest :
  wf_float x = true →
  ∃ c t, float_text x +:+ rest = String c t ∧ starts_value c = true.
Proof.
  intros Hwf. destruct x as [|[]|[i f|i f e]];
    try (eexists _, _; split; reflexivity);
    simpl in Hwf; apply andb_true_iff in Hwf as [Hi _]; cbn [float_text];
    rewrite ?string_app_assoc;
    (edestruct (int_text_head i) as (c & t & Heq & Hc); [exact Hi|]);
    exists c, t; (split; [exact Heq|]); unfold starts_value;
    apply orb_true_iff in Hc as [-> | ->]; by rewrite ?orb_true_r.
Qed.

Lemma json_dumps_head v rest :
  wf_json v = true →
  ∃ c t, json_dumps v +:+ rest = String c t ∧ starts_value c = true.
Proof.
  intros Hwf.
  destruct v as [|[]|n|x|s|l|items];
    try (eexists _, _; split; reflexivity).
  - change (json_dumps (JInt n)) with (NilEmpty.string_of_int (Z.to_int n)).
    destruct (int_text_head (Z.to_int n) rest (wf_uint_to_int n))
      as (c & t & Heq & Hc).
    exists c, t. split; [done|]. unfold starts_value.
    apply orb_true_iff in Hc as [-> | ->]; by rewrite ?orb_true_r.
  - by apply float_text_head.
Qed.

Lemma starts_value_facts c :
  starts_value c = true →
  is_ws c = false ∧ Ascii.eqb c "]" = false ∧ Ascii.eqb c "}" = false.
Proof.
  destruct c as [[] [] [] [] [] [] [] []]; intros Hc;
    try discriminate Hc; repeat split.
Qed.

Lemma skip_ws_dumps v rest :
  wf_json v = true → skip_ws (json_dumps v +:+ rest) = json_dumps v +:+ rest.
Proof.
  intros Hwf. destruct (json_dumps_head v rest Hwf) as (c & t & -> & Hc).
  apply starts_value_facts in Hc as (Hws & _). simpl. by rewrite Hws.
Qed.

Lemma strip_close_dumps close v rest :
  wf_json v = true → close = "]"%char ∨ close = "}"%char →
  strip_prefix (String close "") (json_dumps v +:+ rest) = None.
Proof.
  intros Hwf. destruct (json_dumps_head v rest Hwf) as (c & t & -> & Hc).
  apply starts_value_facts in Hc as (_ & Hb & Hd). simpl.
  intros [->| ->].
  - rewrite Ascii.eqb_sym. by rewrite Hb.
  - rewrite Ascii.eqb_sym. by rewrite Hd.
Qed.

(** *** Items with distinct keys make the dict they are read into *)

Lemma dict_set_fresh k v items :
  k ∉ map fst items → dict_set k v items = items ++ [(k, v)].
Proof.
  induction items as [|[k' v'] items IH]; simpl; [done|].
  intros Hk. apply not_elem_of_cons in Hk as [Hne Hk].
  rewrite bool_decide_false by done. by rewrite IH.
Qed.

Lemma dict_of_pairs_acc pairs acc :
  NoDup (map fst (acc ++ pairs)) →
  fold_left (λ items kv, dict_set (fst kv) (snd kv) items) pairs acc
  = acc ++ pairs.
Proof.
  revert acc. induction pairs as [|[k v] pairs IH]; intros acc Hnd; simpl.
  - by rewrite app_nil_r.
  - rewrite dict_set_fresh.
    + rewrite IH; rewrite <- app_assoc; done.
    + rewrite map_app in Hnd. apply NoDup_app in Hnd as (_ & Hdisj & _).
      intros Hin. apply (Hdisj k Hin). simpl. left.
Qed.

Lemma dict_of_pairs_unique items :
  NoDup (map fst items) → dict_of_pairs items = items.
Proof.
  intros Hk. unfold dict_of_pairs. by rewrite dict_of_pairs_acc.
Qed.

Lemma string_app_empty_r (a : string) : a +:+ "" = a.
Proof. induction a as [|x a IH]; [done|]. rewrite app_String. by f_equal. Qed.

Lemma scan_value_eq fuel c rest :
  scan_value (S fuel) (String c rest) =
    if Ascii.eqb c "034" then
      '(str, rest') ← scan_string rest; Some (JStr str, rest')
    else if Ascii.eqb c "{" then
      match strip_prefix "}" (skip_ws rest) with
      | Some rest' => Some (JDict [], rest')
      | None =>
          '(pairs, rest') ← scan_members fuel (skip_ws rest);
          Some (JDict (dict_of_pairs pairs), rest')
      end
    else if Ascii.eqb c "[" then
      match strip_prefix "]" (skip_ws rest) with
      | Some rest' => Some (JList [], rest')
      | None =>
          '(l, rest') ← scan_items fuel (skip_ws rest);
          Some (JList l, rest')
      end
    else if Ascii.eqb c "n" then
      rest' ← strip_prefix "ull" rest; Some (JNull, rest')
    else if Ascii.eqb c "t" then
      rest' ← strip_prefix "rue" rest; Some (JBool true, rest')
    else if Ascii.eqb c "f" then
      rest' ← strip_prefix "alse" rest; Some (JBool false, rest')
    else
      match scan_number (String c rest) with
      | Some r => Some r
      | None =>
          if Ascii.eqb c "N" then
            rest' ← strip_prefix "aN" rest; Some (JFloat NaN, rest')
          else if Ascii.eqb c "I" then
            rest' ← strip_prefix "nfinity" rest;
            Some (JFloat (Infinity false), rest')
          else if Ascii.eqb c "-" then
            rest' ← strip_prefix "Infinity" rest;
            Some (JFloat (Infinity true), rest')
          else None
      end.
Proof. reflexivity. Qed.

Lemma scan_items_eq fuel s :
  scan_items (S fuel) s =
    '(v, r) ← scan_value fuel s;
    match skip_ws r with
    | String c r' =>
        if Ascii.eqb c "," then
          '(vs, r'') ← scan_items fuel (skip_ws r'); Some (v :: vs, r'')
        else if Ascii.eqb c "]" then Some ([v], r')
        else None
    | EmptyString => None
    end.
Proof. reflexivity. Qed.

Lemma scan_members_eq fuel s :
  scan_members (S fuel) s =
    r0 ← strip_prefix DQ s;
    '(k, r1) ← scan_string r0;
    r2 ← strip_prefix ":" (skip_ws r1);
    '(v, r3) ← scan_value fuel (skip_ws r2);
    match skip_ws r3 with
    | String c r4 =>
        if Ascii.eqb c "," then
          '(kvs, r5) ← scan_members fuel (skip_ws r4);
          Some ((k, v) :: kvs, r5)
        else if Ascii.eqb c "}" then Some ([(k, v)], r4)
        else None
    | EmptyString => None
    end.
Proof. reflexivity. Qed.

Lemma scan_value_number fuel s r :
  (∃ c t, s = String c t ∧ Ascii.eqb c "-" || is_digit c = true) →
  scan_number s = Some r → scan_value (S fuel) s = Some r.
Proof.
  intros (c & t & -> & Hc) Hnum. rewrite scan_value_eq, Hnum.
  destruct c as [[] [] [] [] [] [] [] []]; try discriminate Hc; reflexivity.
Qed.

Lemma skip_ws_join v l rest :
  forallb wf_json (v :: l) = true →
  skip_ws (str_join ", " (map json_dumps (v :: l)) +:+ rest)
  = str_join ", " (map json_dumps (v :: l)) +:+ rest.
Proof.
  intros Hwf. simpl in Hwf. apply andb_true_iff in Hwf as [Hv _].
  destruct l as [|y l].
  - by apply skip_ws_dumps.
  - change (str_join ", " (map json_dumps (v :: y :: l)))
      with (json_dumps v +:+ ", " +:+ str_join ", " (map json_dumps (y :: l))).
    rewrite string_app_assoc. by apply skip_ws_dumps.
Qed.

Lemma strip_close_join v l rest :
  forallb wf_json (v :: l) = true →
  strip_prefix "]" (str_join ", " (map json_dumps (v :: l)) +:+ rest) = None.
Proof.
  intros Hwf. simpl in Hwf. apply andb_true_iff in Hwf as [Hv _].
  destruct l as [|y l].
  - apply strip_close_dumps; [done|by left].
  - change (str_join ", " (map json_dumps (v :: y :: l)))
      with (json_dumps v +:+ ", " +:+ str_join ", " (map json_dumps (y :: l))).
    rewrite string_app_assoc. apply strip_close_dumps; [done|by left].
Qed.

Lemma scan_items_dumps l :
  Forall roundtrips l → forallb wf_json l = true → l ≠ [] →
  ∀ fuel rest,
    list_sum (map (λ x, S (jsize x)) l) ≤ fuel →
    scan_items fuel (str_join ", " (map json_dumps l) +:+ String "]" rest)
    = Some (l, rest).
Proof.
  induction 1 as [|x l Hx Hl IH]; [done|].
  intros Hwf _ fuel rest Hfuel. simpl in Hwf, Hfuel.
  apply andb_true_iff in Hwf as [Hwfx Hwfl].
  destruct fuel as [|fuel]; [lia|]. rewrite scan_items_eq.
  destruct l as [|y l].
  - change (str_join ", " (map json_dumps [x])) with (json_dumps x).
    rewrite (Hx Hwfx) by (simpl; (lia || done)). reflexivity.
  - change (str_join ", " (map json_dumps (x :: y :: l)))
      with (json_dumps x +:+ ", " +:+ str_join ", " (map json_dumps (y :: l))).
    rewrite !string_app_assoc.
    remember (str_join ", " (map json_dumps (y :: l)) +:+ String "]" rest) as X.
    change (", " +:+ X) with (String "," (String " " X)).
    rewrite (Hx Hwfx) by (simpl; (lia || done)).
    simpl. subst X. rewrite skip_ws_join by done.
    rewrite IH by (done || simpl in *; lia). reflexivity.
Qed.

Lemma member_shape k v T :
  member_text (k, v) +:+ T
  = String "034" (encode_chars k +:+
      String "034" (String ":" (String " " (json_dumps v +:+ T)))).
Proof.
  unfold member_text, encode_basestring, DQ. simpl fst. simpl snd.
  rewrite !string_app_assoc. reflexivity.
Qed.

Lemma members_head kv items T :
  skip_ws (str_join ", " (map member_text (kv :: items)) +:+ T)
  = str_join ", " (map member_text (kv :: items)) +:+ T
  ∧ strip_prefix "}" (str_join ", " (map member_text (kv :: items)) +:+ T)
    = None.
Proof.
  destruct kv as [k v].
  change (str_join ", " (map member_text ((k, v) :: items)))
    with (String.concat ", " (member_text (k, v) :: map member_text items)).
  destruct (map member_text items); simpl String.concat;
    rewrite ?string_app_assoc, member_shape; split; reflexivity.
Qed.

Lemma scan_members_dumps items :
  Forall (λ kv, roundtrips (snd kv)) items →
  forallb (λ kv, forallb is_scalar (fst kv) && wf_json (snd kv)) items = true →
  items ≠ [] →
  ∀ fuel rest,
    list_sum (map (λ kv, S (jsize (snd kv))) items) ≤ fuel →
    scan_members fuel (str_join ", " (map member_text items) +:+ String "}" rest)
    = Some (items, rest).
Proof.
  induction 1 as [|[k v] l Hx Hl IH]; [done|].
  intros Hwf _ fuel rest Hfuel. simpl in Hwf, Hfuel, Hx.
  apply andb_true_iff in Hwf as [Hwfx Hwfl].
  apply andb_true_iff in Hwfx as [Hk Hwfx].
  destruct fuel as [|fuel]; [lia|]. rewrite scan_members_eq.
  destruct l as [|y l].
  - change (str_join ", " (map member_text [(k, v)])) with (member_text (k, v)).
    rewrite member_shape.
    change (strip_prefix DQ (String "034" ?R)) with (Some R).
    cbn [mbind option_bind]. rewrite scan_string_encode by done.
    cbn [mbind option_bind skip_ws is_ws strip_prefix Ascii.eqb Bool.eqb orb].
    rewrite skip_ws_dumps by done.
    rewrite (Hx Hwfx) by (simpl; (lia || done)). reflexivity.
  - change (str_join ", " (map member_text ((k, v) :: y :: l)))
      with (member_text (k, v) +:+ ", " +:+ str_join ", " (map member_text (y :: l))).
    rewrite string_app_assoc, member_shape, string_app_assoc.
    remember (str_join ", " (map member_text (y :: l)) +:+ String "}" rest) as X.
    change (", " +:+ X) with (String "," (String " " X)).
    change (strip_prefix DQ (String "034" ?R)) with (Some R).
    cbn [mbind option_bind]. rewrite scan_string_encode by done.
    cbn [mbind option_bind skip_ws is_ws strip_prefix Ascii.eqb Bool.eqb orb].
    rewrite skip_ws_dumps by done.
    rewrite (Hx Hwfx) by (simpl; (lia || done)).
    cbn [mbind option_bind skip_ws is_ws strip_prefix Ascii.eqb Bool.eqb orb].
    assert (skip_ws X = X) as -> by (subst X; apply members_head).
    subst X. rewrite IH by (done || simpl in *; lia). reflexivity.
Qed.

Lemma scan_value_dumps v : roundtrips v.
Proof.
  induction v as [|b|n|x|s|l IHl|items IHitems] using json_ind';
    intros Hwf fuel rest Hfuel Hrest;
    (destruct fuel as [|fuel]; [simpl in Hfuel; lia|]).
  - reflexivity.
  - by destruct b.
  - apply scan_value_number; [|by apply scan_number_str_Z].
    destruct (int_text_head (Z.to_int n) rest (wf_uint_to_int n))
      as (c & t & Heq & Hc). by exists c, t.
  - destruct x as [|[]|d]; [reflexivity..|].
    apply scan_value_number; [|by apply scan_number_float].
    change (json_dumps (JFloat (Finite d))) with (float_text (Finite d)).
    simpl in Hwf.
    destruct d as [i f|i f e]; apply andb_true_iff in Hwf as [Hi _];
      cbn [float_text]; rewrite ?string_app_assoc;
      (edestruct (int_text_head i) as (c & t & Heq & Hc); [exact Hi|]);
      exists c, t; (split; [exact Heq|done]).
  - change (json_dumps (JStr s) +:+ rest)
      with (String "034" ((encode_chars s +:+ DQ) +:+ rest)).
    rewrite string_app_assoc. change (DQ +:+ rest) with (String "034" rest).
    rewrite scan_value_eq. cbn [Ascii.eqb Bool.eqb].
    by rewrite scan_string_encode.
  - destruct l as [|x l]; [reflexivity|].
    change (json_dumps (JList (x :: l)) +:+ rest)
      with (String "[" ((str_join ", " (map json_dumps (x :: l)) +:+ "]") +:+ rest)).
    rewrite string_app_assoc. change ("]" +:+ rest) with (String "]" rest).
    rewrite scan_value_eq. cbn [Ascii.eqb Bool.eqb].
    change (wf_json (JList (x :: l))) with (forallb wf_json (x :: l)) in Hwf.
    rewrite skip_ws_join, strip_close_join by done.
    rewrite scan_items_dumps; [reflexivity|done|done|done|].
    simpl in Hfuel. simpl. lia.
  - destruct items as [|kv items]; [reflexivity|].
    change (json_dumps (JDict (kv :: items)) +:+ rest)
      with (String "{" ((str_join ", " (map member_text (kv :: items)) +:+ "}") +:+ rest)).
    rewrite string_app_assoc. change ("}" +:+ rest) with (String "}" rest).
    rewrite scan_value_eq. cbn [Ascii.eqb Bool.eqb].
    change (wf_json (JDict (kv :: items)))
      with (bool_decide (NoDup (map fst (kv :: items)))
            && forallb (λ kv, forallb is_scalar (fst kv) && wf_json (snd kv))
                 (kv :: items)) in Hwf.
    apply andb_true_iff in Hwf as [Hkeys Hwf].
    apply bool_decide_eq_true in Hkeys.
    destruct (members_head kv items (String "}" rest)) as [-> ->].
    rewrite scan_members_dumps; [|done|done|done|].
    + cbn [mbind option_bind]. by rewrite dict_of_pairs_unique.
    + simpl in Hfuel. simpl. lia.
Qed.

Lemma string_length_app (a b : string) :
  String.length (a +:+ b) = String.length a + String.length b.
Proof.
  induction a as [|x a IH]; [done|]. rewrite app_String. simpl. by rewrite IH.
Qed.

Lemma json_dumps_length_pos v :
  wf_json v = true → 1 ≤ String.length (json_dumps v).
Proof.
  intros Hwf. destruct (json_dumps_head v "" Hwf) as (c & t & Heq & _).
  rewrite string_app_empty_r in Heq. rewrite Heq. simpl. lia.
Qed.

Lemma jsize_items_length (f : json → nat) (g : json → string) l :
  Forall (λ x, f x ≤ String.length (g x)) l →
  list_sum (map (λ x, S (f x)) l) ≤ S (String.length (str_join ", " (map g l))).
Proof.
  induction 1 as [|x l Hx Hl IH]; simpl; [lia|].
  destruct l as [|y l]; simpl in *; [lia|].
  rewrite !string_length_app. simpl. lia.
Qed.

Lemma jsize_members_length items :
  Forall (λ kv, jsize (snd kv) ≤ String.length (json_dumps (snd kv))) items →
  list_sum (map (λ kv, S (jsize (snd kv))) items)
  ≤ S (String.length (str_join ", " (map member_text items))).
Proof.
  induction 1 as [|[k v] l Hx Hl IH]; simpl; [lia|].
  assert (jsize v ≤ String.length (member_text (k, v))) as Hm.
  { unfold member_text. rewrite !string_length_app. simpl in *. lia. }
  destruct l as [|y l]; simpl in *; [lia|].
  rewrite !string_length_app. simpl. lia.
Qed.

Lemma jsize_dumps v :
  wf_json v = true → jsize v ≤ String.length (json_dumps v).
Proof.
  induction v as [|b|n|x|s|l IHl|items IHitems] using json_ind';
    intros Hwf; try by apply json_dumps_length_pos.
  - change (json_dumps (JList l))
      with ("[" +:+ str_join ", " (map json_dumps l) +:+ "]").
    rewrite !string_length_app.
    change (wf_json (JList l)) with (forallb wf_json l) in Hwf.
    assert (Forall (λ x, jsize x ≤ String.length (json_dumps x)) l) as Hall.
    { apply Forall_forall. intros x Hx.
      apply (proj1 (Forall_forall _ _) IHl x Hx).
      apply (proj1 (forallb_forall _ _) Hwf). by apply list_elem_of_In. }
    pose proof (jsize_items_length jsize json_dumps l Hall).
    simpl. lia.
  - change (json_dumps (JDict items))
      with ("{" +:+ str_join ", " (map member_text items) +:+ "}").
    rewrite !string_length_app.
    change (wf_json (JDict items))
      with (bool_decide (NoDup (map fst items))
            && forallb (λ kv, forallb is_scalar (fst kv) && wf_json (snd kv))
                 items) in Hwf.
    apply andb_true_iff in Hwf as [_ Hwf].
    assert (Forall (λ kv, jsize (snd kv) ≤ String.length (json_dumps (snd kv)))
              items) as Hall.
    { apply Forall_forall. intros kv Hkv.
      apply (proj1 (Forall_forall _ _) IHitems kv Hkv).
      apply list_elem_of_In in Hkv.
      apply (proj1 (forallb_forall _ _) Hwf) in Hkv.
      by apply andb_true_iff in Hkv as [_ Hkv]. }
    pose proof (jsize_members_length items Hall).
    simpl. lia.
Qed.

(** [json.loads(json.dumps(v))] is [v] again, for every Specification [v]. *)
Lemma json_loads_dumps v : wf_json v = true → json_loads (json_dumps v) = Ok v.
Proof.
  intros Hwf. unfold json_loads.
  pose proof (skip_ws_dumps v "" Hwf) as Hskip.
  pose proof (scan_value_dumps v Hwf (String.length (json_dumps v)) ""
                (jsize_dumps v Hwf) eq_refl) as Hscan.
  rewrite string_app_empty_r in Hskip, Hscan.
  by rewrite Hskip, Hscan.
Qed.

(** *** A Specification without NaN is equal to itself *)

Lemma number_eqb_refl x : x ≠ NotANumber → number_eqb x x = true.
Proof.
  destruct x as [|b|n e]; [done|by destruct b|]. intros _. simpl.
  apply Z.eqb_refl.
Qed.

Lemma float_value_number x : x ≠ NaN → float_value x ≠ NotANumber.
Proof.
  destruct x as [|b|d]; [done|done|]. intros _. unfold float_value.
  destruct d as [i f|i f e];
    repeat match goal with
           | |- context [if ?b then _ else _] => destruct b
           | |- context [match ?o with Some _ => _ | None => _ end] =>
               destruct o as [[? ?]|]
           end; done.
Qed.

Lemma dict_get_elem k v items :
  NoDup (map fst items) → (k, v) ∈ items → dict_get k items = Some v.
Proof.
  induction items as [|[k' v'] items IH]; intros Hnd Hin.
  - by apply elem_of_nil in Hin.
  - simpl in *. apply NoDup_cons in Hnd as [Hk' Hnd].
    apply elem_of_cons in Hin as [[= -> ->]|Hin].
    + by rewrite bool_decide_true.
    + rewrite bool_decide_false; [by apply IH|].
      intros ->. apply Hk'. apply list_elem_of_fmap. by exists (k', v).
Qed.

Lemma py_eq_number v :
  (∃ x, number_of v = Some x ∧ x ≠ NotANumber) → py_eq v v = true.
Proof.
  intros (x & Hx & Hnan).
  destruct v; try discriminate Hx; simpl in Hx;
    injection Hx as <-; exact (number_eqb_refl _ Hnan).
Qed.

Lemma py_eq_refl v : wf_json v = true → nan_free v = true → py_eq v v = true.
Proof.
  induction v as [|b|n|x|s|l IHl|items IHitems] using json_ind';
    intros Hwf Hnan.
  - reflexivity.
  - apply py_eq_number. by eexists.
  - apply py_eq_number. by eexists.
  - apply py_eq_number. eexists. split; [done|].
    apply float_value_number. by intros ->.
  - simpl. by apply bool_decide_eq_true.
  - change (wf_json (JList l)) with (forallb wf_json l) in Hwf.
    change (nan_free (JList l)) with (forallb nan_free l) in Hnan.
    induction IHl as [|x l Hx Hl IH]; [done|].
    simpl in Hwf, Hnan.
    apply andb_true_iff in Hwf as [Hwfx Hwfl].
    apply andb_true_iff in Hnan as [Hnanx Hnanl].
    specialize (IH Hwfl Hnanl). simpl in *.
    by rewrite Hx, IH.
  - change (wf_json (JDict items))
      with (bool_decide (NoDup (map fst items))
            && forallb (λ kv, forallb is_scalar (fst kv) && wf_json (snd kv))
                 items) in Hwf.
    change (nan_free (JDict items))
      with (forallb (λ kv, nan_free (snd kv)) items) in Hnan.
    apply andb_true_iff in Hwf as [Hkeys Hwf].
    apply bool_decide_eq_true in Hkeys.
    simpl. rewrite Nat.eqb_refl. simpl.
    assert (∀ sub, sub ⊆ items →
      (fix all (i : list (list N * json)) : bool :=
         match i with
         | [] => true
         | (k, v) :: i' =>
             match dict_get k items with
             | Some w => py_eq v w
             | None => false
             end && all i'
         end) sub = true) as Hsub; [|by apply Hsub].
    induction sub as [|[k v] sub IH]; intros Hincl; [done|].
    assert ((k, v) ∈ items) as Hin by (apply Hincl; left).
    rewrite (dict_get_elem k v items Hkeys Hin).
    rewrite IH by (intros y Hy; apply Hincl; by right).
    rewrite andb_true_r.
    apply (proj1 (Forall_forall _ _) IHitems (k, v) Hin).
    + apply list_elem_of_In in Hin.
      apply (proj1 (forallb_forall _ _) Hwf) in Hin.
      by apply andb_true_iff in Hin as [_ Hin].
    + apply list_elem_of_In in Hin.
      by apply (proj1 (forallb_forall _ _) Hnan) in Hin.
Qed.

(** ** The directive and the visitors *)

Section Properties.
Context `{H : Host} `{O : OS}.

Lemma next_serial_with_serial env n : next_serial (with_serial env n) = n.
Proof. unfold next_serial, with_serial. simpl. by rewrite lookup_insert_eq. Qed.

Lemma run_inv self env nodes env' :
  run self env = (Ok nodes, env') →
  has_key "hide-code" (options self) = false ∧
  has_key "show-json" (options self) = false ∧
  ∃ chart s rel,
    exec_then_eval (code_of self) = Ok chart ∧
    to_dict chart = Ok s ∧
    os_path_relpath (os_path_dirname (document_source self)) (srcdir env) = Ok rel ∧
    env' = with_serial env (next_serial env + 1) ∧
    nodes =
      let p := AltairPlot (plot_of self (next_serial env) rel s) in
      let b := LiteralBlock (source_listing self) in
      if has_key "code-below" (options self)
      then [Target [target_id (plot_of self (next_serial env) rel s)]; p; b]
      else [Target [target_id (plot_of self (next_serial env) rel s)]; b; p].
Proof.
  unfold run, mbind, M_bind, lift, mret, M_ret, new_serialno, specjson.
  fold (code_of self).
  destruct (exec_then_eval (code_of self)) as [chart|e] eqn:Hc; [|discriminate].
  destruct (to_dict chart) as [s|e] eqn:Hd; [|discriminate].
  destruct (has_key "show-json" (options self)); [discriminate|].
  destruct (has_key "hide-code" (options self)); simpl; [discriminate|].
  destruct (os_path_relpath _ _) as [rel|e] eqn:Hrel; [|discriminate].
  intros Heq. do 2 (split; [done|]). exists chart, s, rel.
  do 3 (split; [done|]).
  unfold with_serial, next_serial, plot_of, source_listing, rst_base_of, serial_key.
  destruct (has_key "code-below" _); simpl in Heq; inversion Heq; done.
Qed.


Lemma run_ok self env chart s rel :
  has_key "hide-code" (options self) = false →
  has_key "show-json" (options self) = false →
  exec_then_eval (code_of self) = Ok chart →
  to_dict chart = Ok s →
  os_path_relpath (os_path_dirname (document_source self)) (srcdir env) = Ok rel →
  run self env =
    (Ok (let t := Target [target_id (plot_of self (next_serial env) rel s)] in
         let p := AltairPlot (plot_of self (next_serial env) rel s) in
         let b := LiteralBlock (source_listing self) in
         if has_key "code-below" (options self) then [t; p; b] else [t; b; p]),
     with_serial env (next_serial env + 1)).
Proof.
  intros Hh Hj Hc Hd Hrel.
  unfold run, mbind, M_bind, lift, mret, M_ret, new_serialno, specjson.
  fold (code_of self). rewrite Hc, Hd, Hh, Hj. simpl. rewrite Hrel.
  destruct (has_key "code-below" _); reflexivity.
Qed.

Lemma run_exec_raises self env e :
  exec_then_eval (code_of self) = Raise e → run self env = (Raise e, env).
Proof.
  intros Hc. unfold run, mbind, M_bind, lift. fold (code_of self).
  by rewrite Hc.
Qed.

Lemma run_show_json_raises self env chart s :
  has_key "show-json" (options self) = true →
  exec_then_eval (code_of self) = Ok chart →
  to_dict chart = Ok s →
  run self env = (Raise (NameError "specjson"), env).
Proof.
  intros Hj Hc Hd. unfold run, mbind, M_bind, lift, specjson.
  fold (code_of self). by rewrite Hc, Hd, Hj.
Qed.

Lemma run_hide_code_raises self env chart s :
  has_key "hide-code" (options self) = true →
  has_key "show-json" (options self) = false →
  exec_then_eval (code_of self) = Ok chart →
  to_dict chart = Ok s →
  run self env = (Raise (UnboundLocalError "source_literal"),
                  with_serial env (next_serial env + 1)).
Proof.
  intros Hh Hj Hc Hd.
  unfold run, mbind, M_bind, lift, mret, M_ret, new_serialno.
  fold (code_of self). by rewrite Hc, Hd, Hh, Hj.
Qed.

(** A directive with [hide-code] or [show-json] never returns nodes. *)
Lemma run_flags_never_ok self env nodes env' :
  run self env = (Ok nodes, env') →
  options self !! "hide-code" = None ∧ options self !! "show-json" = None.
Proof.
  intros Hrun. apply run_inv in Hrun as (Hh & Hj & _).
  unfold has_key in Hh, Hj.
  destruct (options self !! "hide-code"), (options self !! "show-json");
    done.
Qed.

Lemma elem_of_plot (cb : bool) ids p b q :
  AltairPlot q ∈ (if cb then [Target ids; AltairPlot p; LiteralBlock b]
                  else [Target ids; LiteralBlock b; AltairPlot p]) ↔ q = p.
Proof.
  destruct cb; rewrite !elem_of_cons, elem_of_nil; split;
    try (intros ->; auto); intros [?|[?|[?|[]]]]; congruence.
Qed.

Lemma body_pop_snoc body s : body_pop (body ++ [s]) = Ok (s, body).
Proof.
  unfold body_pop. by rewrite last_snoc, removelast_last.
Qed.

Lemma body_pop_last body s :
  last body = Some s → body_pop body = Ok (s, removelast body).
Proof. intros Hl. unfold body_pop. by rewrite Hl. Qed.

(** C1 (as amended): a directive that returns has the anchor first; with
    [code-below] the plot node comes directly after the anchor and the source
    listing below it, without [code-below] the plot node comes after the
    source listing. *)
Theorem run_order self env nodes env' :
  run self env = (Ok nodes, env') →
  ∃ anchor plot listing,
    is_target anchor = true ∧ is_plot plot = true ∧ is_listing listing = true ∧
    nodes =
      (if has_key "code-below" (options self)
       then plot_then_listings else listings_then_plot) anchor plot [listing].
Proof.
  intros Hrun. apply run_inv in Hrun as (_ & _ & chart & s & rel & _ & _ & _ & _ & ->).
  exists (Target [target_id (plot_of self (next_serial env) rel s)]),
    (AltairPlot (plot_of self (next_serial env) rel s)),
    (LiteralBlock (source_listing self)).
  do 3 (split; [reflexivity|]).
  destruct (has_key "code-below" _); reflexivity.
Qed.

Lemma exec_then_eval_value body s v code :
  ast_parse code = Ok body → last body = Some s → stmt_value s = Ok v →
  exec_then_eval code
  = '(g, l) ← exec_code (removelast body) ∅ ∅;
    e ← compile_expression v; eval_code e g l.
Proof.
  intros Hp Hl Hv. unfold exec_then_eval. rewrite Hp. simpl.
  rewrite (body_pop_last _ _ Hl). simpl. rewrite Hv. simpl.
  by destruct (exec_code (removelast body) ∅ ∅) as [[g l]|].
Qed.

(** C2 (as amended), for a block whose last statement is no expression
    statement.  When its node has no field [value] ([pass], an import,
    [del], [global], [if], [while], [for], [with], [try], [raise], [assert],
    [def], [class], [break], and so on) the executor raises an attribute
    error before anything is executed, and the directive returns no node
    and allocates no serial number.  When the field holds [None] (a bare
    [return], an annotation without value) the statements before it are
    executed and then, unless one of them raised, a value error is raised;
    the directive returns no node.  When the field holds an expression (an
    assignment, a type alias, [return] with a value) that expression is
    evaluated as a final expression would be. *)
Theorem exec_then_eval_no_value self env body s :
  ast_parse (code_of self) = Ok body →
  last body = Some s →
  ((∀ e, s ≠ Expr e) ∧ (∀ t e, s ≠ Assign t e) ∧
   (∀ t op e, s ≠ AugAssign t op e) ∧ (∀ n e, s ≠ TypeAlias n e) ∧
   (∀ t a v, s ≠ AnnAssign t a v) ∧ (∀ v, s ≠ Return v) →
   exec_then_eval (code_of self) = Raise (AttributeError "value") ∧
   run self env = (Raise (AttributeError "value"), env)) ∧
  (s = Return None ∨ (∃ t a, s = AnnAssign t a None) →
   ∃ e,
     exec_then_eval (code_of self) = Raise e ∧
     run self env = (Raise e, env) ∧
     (exec_code (removelast body) ∅ ∅ = Raise e ∨
      (∃ g l, exec_code (removelast body) ∅ ∅ = Ok (g, l)) ∧ e = ValueError)) ∧
  (∀ v,
     s = Return (Some v) ∨ (∃ t a, s = AnnAssign t a (Some v)) ∨
     (∃ n, s = TypeAlias n v) ∨ (∃ t, s = Assign t v) ∨
     (∃ t op, s = AugAssign t op v) →
     exec_then_eval (code_of self)
     = '(g, l) ← exec_code (removelast body) ∅ ∅; eval_code v g l).
Proof.
  intros Hp Hl. split; [|split].
  - intros (He & Ha & Hu & Ht & Hn & Hr).
    assert (exec_then_eval (code_of self) = Raise (AttributeError "value")) as Hx.
    { unfold exec_then_eval. rewrite Hp. simpl.
      rewrite (body_pop_last _ _ Hl). simpl.
      destruct s; try reflexivity.
      - by destruct (Hr value0).
      - by destruct (Ha targets value0).
      - by destruct (Ht name value0).
      - by destruct (Hu target op value0).
      - by destruct (Hn target annotation value0).
      - by destruct (He value0). }
    split; [done|]. by apply run_exec_raises.
  - intros Hs.
    assert (stmt_value s = Ok None) as Hv
      by (by destruct Hs as [->|(t & a & ->)]).
    pose proof (exec_then_eval_value body s None (code_of self) Hp Hl Hv) as Hx.
    destruct (exec_code (removelast body) ∅ ∅) as [[g l]|e] eqn:Hexec.
    + exists ValueError. split; [done|]. split; [by apply run_exec_raises|].
      right. split; [by exists g, l|done].
    + exists e. split; [done|]. split; [by apply run_exec_raises|]. by left.
  - intros v Hs.
    assert (stmt_value s = Ok (Some v)) as Hv
      by (by destruct Hs
            as [->|[(t & a & ->)|[(n & ->)|[(t & ->)|(t & op & ->)]]]]).
    rewrite (exec_then_eval_value body s (Some v) (code_of self) Hp Hl Hv).
    by destruct (exec_code (removelast body) ∅ ∅) as [[g l]|].
Qed.

(** C5: for a block whose last statement is the expression [e], the
    executor runs the statements before it in two fresh namespaces and
    evaluates [e] in the namespaces they leave; the directive returns nodes
    unless [hide-code] or [show-json] is given, and the specification of
    every plot node it returns is [to_dict] of that value. *)
Theorem exec_then_eval_last_expr self env body e g l chart s rel :
  ast_parse (code_of self) = Ok (body ++ [Expr e]) →
  exec_code body ∅ ∅ = Ok (g, l) →
  eval_code e g l = Ok chart →
  to_dict chart = Ok s →
  os_path_relpath (os_path_dirname (document_source self)) (srcdir env) = Ok rel →
  exec_then_eval (code_of self) = eval_code e g l ∧
  (has_key "hide-code" (options self) = false →
   has_key "show-json" (options self) = false →
   ∃ nodes env', run self env = (Ok nodes, env')) ∧
  (∀ nodes env', run self env = (Ok nodes, env') →
     (∃ p, AltairPlot p ∈ nodes) ∧
     (∀ p, AltairPlot p ∈ nodes → Ok (spec p) = to_dict chart)).
Proof.
  intros Hp Hx Hv Hd Hrel.
  assert (exec_then_eval (code_of self) = eval_code e g l) as Hc.
  { unfold exec_then_eval. rewrite Hp. simpl. rewrite body_pop_snoc. simpl.
    by rewrite Hx. }
  split; [done|]. rewrite Hv in Hc. split.
  - intros Hh Hj. eexists _, _. by eapply run_ok.
  - intros nodes env' Hrun.
    apply run_inv in Hrun
      as (_ & _ & chart' & s' & rel' & Hc' & Hd' & _ & _ & ->).
    rewrite Hc in Hc'. injection Hc' as <-. rewrite Hd.
    rewrite Hd in Hd'. injection Hd' as <-.
    cbv zeta. split.
    + eexists. by apply elem_of_plot.
    + by intros p ->%elem_of_plot.
Qed.

(** C9: the identifiers of a directive that returns are the basename of
    the document's file with each dot turned into a dash, then
    [-altair-source-] for the target and [-altair-plot-] for the div, then
    the serial number that this invocation took from the environment. *)
Theorem run_identifiers self env nodes env' :
  run self env = (Ok nodes, env') →
  let rst_base := str_replace "." "-" (os_path_basename (document_source self)) in
  let serialno := next_serial env in
  next_serial env' = serialno + 1 ∧
  head nodes = Some (Target [rst_base +:+ "-altair-source-" +:+ str_nat serialno]) ∧
  (∃ p, AltairPlot p ∈ nodes) ∧
  ∀ p, AltairPlot p ∈ nodes →
    target_id p = rst_base +:+ "-altair-source-" +:+ str_nat serialno ∧
    div_id p = rst_base +:+ "-altair-plot-" +:+ str_nat serialno.
Proof.
  intros Hrun. apply run_inv in Hrun as (_ & _ & chart & s & rel & _ & _ & _ & -> & ->).
  simpl. split.
  { apply next_serial_with_serial. }
  split; [by destruct (has_key "code-below" _)|].
  split.
  - eexists. by apply elem_of_plot.
  - by intros p ->%elem_of_plot.
Qed.

(** C10: a block without statements makes [block.body.pop()] raise; the
    executor returns no value, and the directive returns no node and leaves
    the environment as it was. *)
Theorem exec_then_eval_empty self env :
  ast_parse (code_of self) = Ok [] →
  exec_then_eval (code_of self) = Raise IndexError ∧
  run self env = (Raise IndexError, env).
Proof.
  intros Hp.
  assert (exec_then_eval (code_of self) = Raise IndexError) as Hx.
  { unfold exec_then_eval. by rewrite Hp. }
  split; [done|]. by apply run_exec_raises.
Qed.


(** *** Serial numbers along a build *)

Lemma run_serial_mono self env r env' :
  run self env = (r, env') → next_serial env ≤ next_serial env'.
Proof.
  unfold run, mbind, M_bind, lift, mret, M_ret, new_serialno, specjson.
  destruct (exec_then_eval _); [|by intros [= _ <-]].
  destruct (to_dict _); [|by intros [= _ <-]].
  destruct (has_key "show-json" _); [by intros [= _ <-]|].
  assert (next_serial env ≤
          next_serial (with_serial env (next_serial env + 1))) as Hle.
  { rewrite next_serial_with_serial. lia. }
  destruct (has_key "hide-code" _); simpl; [by intros [= _ <-]|].
  destruct (os_path_relpath _ _); [|by intros [= _ <-]].
  by intros [= _ <-].
Qed.

Lemma build_serial_mono ds env :
  next_serial env ≤ next_serial (build H ds env).2.
Proof.
  revert env. induction ds as [|d ds IH]; intros env; simpl; [done|].
  destruct (run d env) as [r env1] eqn:Hrun.
  specialize (IH env1). destruct (build H ds env1) as [rs env2]. simpl in *.
  apply run_serial_mono in Hrun. lia.
Qed.

Lemma build_lookup ds env j r :
  (build H ds env).1 !! j = Some r →
  ∃ d envj envj',
    ds !! j = Some d ∧ run d envj = (r, envj') ∧
    next_serial env ≤ next_serial envj.
Proof.
  revert env j. induction ds as [|d ds IH]; intros env j; simpl; [done|].
  destruct (run d env) as [r1 env1] eqn:Hrun.
  specialize (IH env1). destruct (build H ds env1) as [rs env2]. simpl in *.
  destruct j as [|j]; simpl.
  - intros [= <-]. by exists d, env, env1.
  - intros Hj. destruct (IH j Hj) as (dj & envj & envj' & ? & ? & ?).
    exists dj, envj, envj'. do 2 (split; [done|]).
    apply run_serial_mono in Hrun. lia.
Qed.

Lemma build_lookup_pair ds env i j ri rj :
  i < j →
  (build H ds env).1 !! i = Some ri →
  (build H ds env).1 !! j = Some rj →
  ∃ di dj envi envi' envj envj',
    ds !! i = Some di ∧ ds !! j = Some dj ∧
    run di envi = (ri, envi') ∧ run dj envj = (rj, envj') ∧
    next_serial envi' ≤ next_serial envj.
Proof.
  revert env i j. induction ds as [|d ds IH]; intros env i j Hij; simpl; [done|].
  destruct (run d env) as [r1 env1] eqn:Hrun.
  specialize (IH env1). pose proof (build_lookup ds env1) as Hone.
  destruct (build H ds env1) as [rs env2]. simpl in *.
  destruct j as [|j]; [lia|]. destruct i as [|i]; simpl.
  - intros [= <-] Hj.
    destruct (Hone j rj Hj) as (dj & envj & envj' & ? & ? & ?).
    by exists d, dj, env, env1, envj, envj'.
  - intros Hi Hj. apply (IH i j); [lia|done..].
Qed.

(** *** Identifiers built from distinct serial numbers differ *)

Lemma after_last_digits d : after_last "-" (NilEmpty.string_of_uint d) = None.
Proof. induction d; simpl; rewrite ?IHd; done. Qed.

Lemma after_last_app c a d :
  after_last c d = None → after_last c (a +:+ String c d) = Some d.
Proof.
  intros Hd. induction a as [|x a IH].
  - change (after_last c (String c d) = Some d). simpl.
    by rewrite Hd, Ascii.eqb_refl.
  - change (after_last c (String x (a +:+ String c d)) = Some d). simpl.
    by rewrite IH.
Qed.

Lemma str_nat_inj n m : str_nat n = str_nat m → n = m.
Proof.
  unfold str_nat. intros Heq. apply DecimalNat.Unsigned.to_uint_inj.
  pose proof (NilEmpty.usu (Nat.to_uint n)) as Hn.
  rewrite Heq, NilEmpty.usu in Hn. congruence.
Qed.

Lemma dash_number_inj a b n m :
  a +:+ String "-" (str_nat n) = b +:+ String "-" (str_nat m) → n = m.
Proof.
  intros Heq. apply str_nat_inj.
  pose proof (after_last_app "-" a (str_nat n) (after_last_digits _)) as Hn.
  rewrite Heq, after_last_app in Hn by apply after_last_digits. congruence.
Qed.

Lemma source_id_shape base n :
  base +:+ "-altair-source-" +:+ str_nat n
  = (base +:+ "-altair-source") +:+ String "-" (str_nat n).
Proof. by rewrite string_app_assoc. Qed.

Lemma plot_id_shape base n :
  base +:+ "-altair-plot-" +:+ str_nat n
  = (base +:+ "-altair-plot") +:+ String "-" (str_nat n).
Proof. by rewrite string_app_assoc. Qed.

(** C7: in one build, of two directives that return nodes the later one
    has the larger serial number, and no target or div identifier of the one
    equals a target or div identifier of the other. *)
Theorem build_identifiers_unique ds env i j ni nj pi pj :
  i < j →
  (build H ds env).1 !! i = Some (Ok ni) →
  (build H ds env).1 !! j = Some (Ok nj) →
  AltairPlot pi ∈ ni → AltairPlot pj ∈ nj →
  ∃ di dj si sj,
    ds !! i = Some di ∧ ds !! j = Some dj ∧ si < sj ∧
    target_id pi = rst_base_of di +:+ "-altair-source-" +:+ str_nat si ∧
    div_id pi = rst_base_of di +:+ "-altair-plot-" +:+ str_nat si ∧
    target_id pj = rst_base_of dj +:+ "-altair-source-" +:+ str_nat sj ∧
    div_id pj = rst_base_of dj +:+ "-altair-plot-" +:+ str_nat sj ∧
    target_id pi ≠ target_id pj ∧ div_id pi ≠ div_id pj ∧
    target_id pi ≠ div_id pj ∧ div_id pi ≠ target_id pj.
Proof.
  intros Hij Hi Hj Hpi Hpj.
  destruct (build_lookup_pair ds env i j _ _ Hij Hi Hj)
    as (di & dj & envi & envi' & envj & envj' & Hdi & Hdj & Hri & Hrj & Hle).
  apply run_identifiers in Hri as (Hnext & _ & _ & Hidi).
  apply run_identifiers in Hrj as (_ & _ & _ & Hidj).
  destruct (Hidi pi Hpi) as [Hti Hvi]. destruct (Hidj pj Hpj) as [Htj Hvj].
  exists di, dj, (next_serial envi), (next_serial envj).
  assert (next_serial envi < next_serial envj) as Hlt by lia.
  do 3 (split; [done|]). do 4 (split; [done|]).
  rewrite Hti, Hvi, Htj, Hvj.
  fold (rst_base_of di) (rst_base_of dj).
  rewrite !source_id_shape, !plot_id_shape.
  repeat split; intros Heq%dash_number_inj; lia.
Qed.

Lemma os_path_join_relative a b :
  startswith_slash b = false → os_path_join a b = path_under a b.
Proof.
  intros Hb. unfold os_path_join, path_under. rewrite Hb.
  by destruct (is_empty a || endswith_slash a).
Qed.

Lemma startswith_slash_filename d :
  startswith_slash (d +:+ ".vl.json") = startswith_slash d.
Proof. by destruct d. Qed.

Lemma wf_embed_payload node :
  wf_json (spec node) = true → wf_json (embed_payload node) = true.
Proof.
  intros Hwf. unfold embed_payload.
  change (bool_decide (NoDup [codepoints "mode"; codepoints "spec"])
          && (true && (wf_json (spec node) && true)) = true).
  rewrite Hwf. by vm_compute.
Qed.

Lemma nan_free_embed_payload node :
  nan_free (spec node) = true → nan_free (embed_payload node) = true.
Proof.
  intros Hnan. change (nan_free (spec node) && true = true). by rewrite Hnan.
Qed.

(** The outcomes of the HTML visitor: the write succeeded, the fragment is
    appended and [SkipNode] raised, or the operating system refused and
    nothing is appended. *)
Lemma html_visit_inv node tr r tr' :
  html_visit_altair_plot node tr = (r, tr') →
  builder_outdir tr' = builder_outdir tr ∧ catalog tr' = catalog tr ∧
  ((r = Raise SkipNode ∧
    body tr' = body tr ++ [VGL_TEMPLATE (div_id node) (artifact_name node)] ∧
    fs_files tr' (artifact_path tr node) = Some (json_dumps (embed_payload node)))
   ∨ (r = Raise OSError ∧ body tr' = body tr)).
Proof.
  unfold html_visit_altair_plot, mbind, M_bind, mret, M_ret, os_path_exists,
    os_makedirs, write_file, os_call, body_append, raise.
  fold (artifact_dir tr node) (artifact_name node) (embed_payload node).
  destruct (exists_at (artifact_dir tr node) (filesystem tr)); cbn [negb].
  - cbn [filesystem builder_outdir body catalog].
    fold (artifact_path tr node).
    destruct (write_at _ _ _) as [[] w] eqn:Hw; intros [= <- <-];
      cbn [filesystem builder_outdir body catalog]; (do 2 (split; [done|])).
    + left. do 2 (split; [done|]). unfold fs_files. cbn [filesystem].
      by apply write_read in Hw.
    + by right.
  - destruct (makedirs_at _ _) as [[] w1] eqn:Hm;
      cbn [filesystem builder_outdir body catalog].
    + fold (artifact_path tr node).
      destruct (write_at _ _ _) as [[] w] eqn:Hw; intros [= <- <-];
        cbn [filesystem builder_outdir body catalog]; (do 2 (split; [done|])).
      * left. do 2 (split; [done|]). unfold fs_files. cbn [filesystem].
        by apply write_read in Hw.
      * by right.
    + intros [= <- <-]. cbn [filesystem builder_outdir body catalog].
      do 2 (split; [done|]). by right.
Qed.


(** C8: where the catalogue leaves the two messages untranslated, the
    visitor of the non-HTML formats appends [[ graph: A ]] for a node with
    alt text [A] and [[ graph ]] for a node without, raises [SkipNode], and
    touches neither the files nor the directories. *)
Theorem generic_visit_placeholder node tr :
  catalog tr !! "[ graph: %s ]" = None →
  catalog tr !! "[ graph ]" = None →
  ∃ tr',
    generic_visit_altair_plot node tr = (Raise SkipNode, tr') ∧
    body tr' = body tr ++ [match alt node with
                           | Some a => "[ graph: " +:+ a +:+ " ]"
                           | None => "[ graph ]"
                           end] ∧
    fs_files tr' = fs_files tr ∧ fs_dirs tr' = fs_dirs tr.
Proof.
  intros Ha Hn.
  unfold generic_visit_altair_plot, mbind, M_bind, gettext, lift, body_append, raise.
  destruct (alt node) as [a|]; rewrite ?Ha, ?Hn; simpl; eexists; done.
Qed.

End Properties.

(** * The theorems on the worked examples *)

Lemma run_order_witness :
  ∃ anchor plot listing,
    is_target anchor = true ∧ is_plot plot = true ∧ is_listing listing = true ∧
    [intro_anchor chart_lines 0; intro_listing chart_lines;
     AltairPlot (intro_plot ∅ chart_lines 0)]
    = (if has_key "code-below" (options (intro_rst ∅ chart_lines))
       then plot_then_listings else listings_then_plot) anchor plot [listing].
Proof.
  apply (@run_order MiniPy.host (intro_rst ∅ chart_lines) env0
           [intro_anchor chart_lines 0; intro_listing chart_lines;
            AltairPlot (intro_plot ∅ chart_lines 0)]
           (with_serial env0 1)).
  vm_compute. reflexivity.
Defined.

(** C1, as the documentation words it, fails in both positions of the flag:
    without [code-below] the node after the anchor is the source listing,
    and with [code-below] the last node is the source listing. *)
Lemma run_order_not_documented :
  (∃ nodes env',
     @run MiniPy.host (intro_rst ∅ chart_lines) env0 = (Ok nodes, env') ∧
     ¬ ∃ anchor plot listings,
         is_plot plot = true ∧
         nodes = documented_order (has_key "code-below" (∅ : gmap string string))
                   anchor plot listings) ∧
  (∃ nodes env',
     @run MiniPy.host (intro_rst code_below chart_lines) env0 = (Ok nodes, env') ∧
     ¬ ∃ anchor plot listings,
         is_plot plot = true ∧
         nodes = documented_order (has_key "code-below" code_below)
                   anchor plot listings).
Proof.
  split.
  - exists [intro_anchor chart_lines 0; intro_listing chart_lines;
            AltairPlot (intro_plot ∅ chart_lines 0)], (with_serial env0 1).
    split; [vm_compute; reflexivity|].
    intros (anchor & plot & listings & Hplot & Heq).
    change (has_key "code-below" (∅ : gmap string string)) with false in Heq.
    unfold documented_order, plot_then_listings in Heq.
    injection Heq as _ <- _. discriminate Hplot.
  - exists [intro_anchor chart_lines 0;
            AltairPlot (intro_plot code_below chart_lines 0);
            intro_listing chart_lines], (with_serial env0 1).
    split; [vm_compute; reflexivity|].
    intros (anchor & plot & listings & Hplot & Heq).
    change (has_key "code-below" code_below) with true in Heq.
    unfold documented_order, listings_then_plot in Heq.
    injection Heq as _ Heq.
    destruct listings as [|x [|y [|z listings]]]; simplify_eq/=.
Qed.

Lemma exec_then_eval_no_value_witness :
  (@exec_then_eval MiniPy.host (code_of (intro_rst ∅ pass_lines))
     = Raise (AttributeError "value") ∧
   @run MiniPy.host (intro_rst ∅ pass_lines) env0
     = (Raise (AttributeError "value"), env0)) ∧
  (∃ e,
     @exec_then_eval MiniPy.host (code_of (intro_rst ∅ return_lines)) = Raise e ∧
     @run MiniPy.host (intro_rst ∅ return_lines) env0 = (Raise e, env0) ∧
     (@exec_code MiniPy.host [ImportFrom "altair" ["Chart"]] ∅ ∅ = Raise e ∨
      (∃ g l, @exec_code MiniPy.host [ImportFrom "altair" ["Chart"]] ∅ ∅
              = Ok (g, l)) ∧ e = ValueError)).
Proof.
  split.
  - destruct (@exec_then_eval_no_value MiniPy.host (intro_rst ∅ pass_lines) env0
                [ImportFrom "altair" ["Chart"]; Pass] Pass)
      as (Hno & _ & _); [vm_compute; reflexivity|reflexivity|].
    apply Hno. repeat split; intros; discriminate.
  - destruct (@exec_then_eval_no_value MiniPy.host (intro_rst ∅ return_lines)
                env0 [ImportFrom "altair" ["Chart"]; Return None] (Return None))
      as (_ & Hnone & _); [vm_compute; reflexivity|reflexivity|].
    apply Hnone. by left.
Defined.

(** C2, as stated, fails on a block that ends in an assignment: the block
    parses, its last statement is no expression statement, and yet the
    executor returns the value of the right-hand side, no error is raised,
    and the directive returns a plot node.  On a block that ends in [pass]
    the error is an attribute error, and on one that ends in [return] a
    value error, not a syntax error. *)
Lemma exec_then_eval_assignment_returns :
  (@ast_parse MiniPy.host (code_of (intro_rst ∅ assign_lines))
     = Ok [ImportFrom "altair" ["Chart"];
           Assign [Name "chart"] (Call (Name "Chart") [Str "cars.json"])] ∧
   @exec_then_eval MiniPy.host (code_of (intro_rst ∅ assign_lines))
     = Ok (MiniPy.VChart "cars.json") ∧
   @run MiniPy.host (intro_rst ∅ assign_lines) env0
     = (Ok [intro_anchor assign_lines 0; intro_listing assign_lines;
            AltairPlot (intro_plot ∅ assign_lines 0)], with_serial env0 1)) ∧
  (@ast_parse MiniPy.host (code_of (intro_rst ∅ pass_lines))
     = Ok [ImportFrom "altair" ["Chart"]; Pass] ∧
   @exec_then_eval MiniPy.host (code_of (intro_rst ∅ pass_lines))
     ≠ Raise SyntaxError) ∧
  (@ast_parse MiniPy.host (code_of (intro_rst ∅ return_lines))
     = Ok [ImportFrom "altair" ["Chart"]; Return None] ∧
   @exec_then_eval MiniPy.host (code_of (intro_rst ∅ return_lines))
     = Raise ValueError).
Proof.
  repeat split; try (vm_compute; reflexivity).
  vm_compute. discriminate.
Qed.

(** C3: with [hide-code] the directive does not return: reading
    [source_literal] at line 98 raises, after the serial number was taken. *)
Theorem run_hide_code_example :
  @run MiniPy.host (intro_rst hide_code chart_lines) env0
  = (Raise (UnboundLocalError "source_literal"), with_serial env0 1).
Proof. vm_compute. reflexivity. Qed.

(** C4: with [show-json] the directive does not return: reading
    [specjson] at line 79 raises, and no JSON listing is built. *)
Theorem run_show_json_example :
  @run MiniPy.host (intro_rst show_json chart_lines) env0
  = (Raise (NameError "specjson"), env0).
Proof. vm_compute. reflexivity. Qed.

Lemma exec_then_eval_last_expr_witness :
  @exec_then_eval MiniPy.host (code_of (intro_rst ∅ chart_lines))
    = @eval_code MiniPy.host (Name "chart") ∅
        (<["chart" := MiniPy.VChart "cars.json"]>
           (<["Chart" := MiniPy.VChartClass]> ∅)) ∧
  (has_key "hide-code" (options (intro_rst ∅ chart_lines)) = false →
   has_key "show-json" (options (intro_rst ∅ chart_lines)) = false →
   ∃ nodes env', @run MiniPy.host (intro_rst ∅ chart_lines) env0 = (Ok nodes, env')) ∧
  (∀ nodes env',
     @run MiniPy.host (intro_rst ∅ chart_lines) env0 = (Ok nodes, env') →
     (∃ p, AltairPlot p ∈ nodes) ∧
     (∀ p, AltairPlot p ∈ nodes →
        Ok (spec p) = @to_dict MiniPy.host (MiniPy.VChart "cars.json"))).
Proof.
  apply (@exec_then_eval_last_expr MiniPy.host (intro_rst ∅ chart_lines) env0
           [ImportFrom "altair" ["Chart"];
            Assign [Name "chart"] (Call (Name "Chart") [Str "cars.json"])]
           (Name "chart") ∅
           (<["chart" := MiniPy.VChart "cars.json"]>
              (<["Chart" := MiniPy.VChartClass]> ∅))
           (MiniPy.VChart "cars.json") cars_spec "tut");
    vm_compute; reflexivity.
Defined.

Lemma build_identifiers_unique_witness :
  ∃ di dj si sj,
    [intro_rst ∅ chart_lines; intro_rst code_below assign_lines] !! 0 = Some di ∧
    [intro_rst ∅ chart_lines; intro_rst code_below assign_lines] !! 1 = Some dj ∧
    si < sj ∧
    "intro-rst-altair-source-0" = rst_base_of di +:+ "-altair-source-" +:+ str_nat si ∧
    "intro-rst-altair-plot-0" = rst_base_of di +:+ "-altair-plot-" +:+ str_nat si ∧
    "intro-rst-altair-source-1" = rst_base_of dj +:+ "-altair-source-" +:+ str_nat sj ∧
    "intro-rst-altair-plot-1" = rst_base_of dj +:+ "-altair-plot-" +:+ str_nat sj ∧
    "intro-rst-altair-source-0" ≠ "intro-rst-altair-source-1" ∧
    "intro-rst-altair-plot-0" ≠ "intro-rst-altair-plot-1" ∧
    "intro-rst-altair-source-0" ≠ "intro-rst-altair-plot-1" ∧
    "intro-rst-altair-plot-0" ≠ "intro-rst-altair-source-1".
Proof.
  apply (@build_identifiers_unique MiniPy.host
           [intro_rst ∅ chart_lines; intro_rst code_below assign_lines] env0 0 1
           [intro_anchor chart_lines 0; intro_listing chart_lines;
            AltairPlot (intro_plot ∅ chart_lines 0)]
           [intro_anchor assign_lines 1;
            AltairPlot (intro_plot code_below assign_lines 1);
            intro_listing assign_lines]
           (intro_plot ∅ chart_lines 0)
           (intro_plot code_below assign_lines 1)).
  - lia.
  - vm_compute. reflexivity.
  - vm_compute. reflexivity.
  - apply list_elem_of_lookup. exists 2. reflexivity.
  - apply list_elem_of_lookup. exists 1. reflexivity.
Defined.

Lemma generic_visit_placeholder_witness :
  ∃ tr',
    generic_visit_altair_plot (cars_node (Some "Cars")) text_translator
      = (Raise SkipNode, tr') ∧
    body tr' = body text_translator ++ ["[ graph: Cars ]"] ∧
    fs_files tr' = fs_files text_translator ∧
    fs_dirs tr' = fs_dirs text_translator.
Proof.
  apply (generic_visit_placeholder (cars_node (Some "Cars")) text_translator);
    vm_compute; reflexivity.
Defined.

Lemma run_identifiers_witness :
  next_serial (with_serial env0 1) = 0 + 1 ∧
  head [intro_anchor chart_lines 0; intro_listing chart_lines;
        AltairPlot (intro_plot ∅ chart_lines 0)]
    = Some (Target ["intro-rst-altair-source-0"]) ∧
  (∃ p, AltairPlot p ∈ [intro_anchor chart_lines 0; intro_listing chart_lines;
                        AltairPlot (intro_plot ∅ chart_lines 0)]) ∧
  ∀ p, AltairPlot p ∈ [intro_anchor chart_lines 0; intro_listing chart_lines;
                       AltairPlot (intro_plot ∅ chart_lines 0)] →
    target_id p = "intro-rst-altair-source-0" ∧
    div_id p = "intro-rst-altair-plot-0".
Proof.
  apply (@run_identifiers MiniPy.host (intro_rst ∅ chart_lines) env0
           [intro_anchor chart_lines 0; intro_listing chart_lines;
            AltairPlot (intro_plot ∅ chart_lines 0)] (with_serial env0 1)).
  vm_compute. reflexivity.
Defined.

Lemma exec_then_eval_empty_witness :
  @exec_then_eval MiniPy.host (code_of (intro_rst ∅ [])) = Raise IndexError ∧
  @run MiniPy.host (intro_rst ∅ []) env0 = (Raise IndexError, env0).
Proof.
  apply (@exec_then_eval_empty MiniPy.host (intro_rst ∅ []) env0).
  vm_compute. reflexivity.
Defined.



(** * The runtime functions on small inputs *)

Example os_path_basename_ex :
  os_path_basename "/docs/tut/intro.rst" = "intro.rst" ∧
  os_path_basename "intro.rst" = "intro.rst" ∧
  os_path_basename "/docs/tut/" = "".
Proof. repeat split. Qed.

Example os_path_dirname_ex :
  os_path_dirname "/docs/tut/intro.rst" = "/docs/tut" ∧
  os_path_dirname "//intro.rst" = "//" ∧
  os_path_dirname "a//b" = "a" ∧
  os_path_dirname "intro.rst" = "".
Proof. repeat split. Qed.

Example os_path_join_ex :
  os_path_join "/out" "tut" = "/out/tut" ∧
  os_path_join "/out/" "tut" = "/out/tut" ∧
  os_path_join "/out" "/tut" = "/tut" ∧
  os_path_join "" "tut" = "tut" ∧
  os_path_join "/out" "" = "/out/".
Proof. repeat split. Qed.

Example str_ex :
  str_nat 0 = "0" ∧ str_nat 120 = "120" ∧ str_Z (-45) = "-45" ∧ str_Z 0 = "0".
Proof. repeat split. Qed.

(** The floats 0.5, 1e+16 and 1.5e-07. *)
Definition half : pyfloat :=
  Finite (Decimal.Decimal (Decimal.Pos (Decimal.D0 Decimal.Nil))
            (Decimal.D5 Decimal.Nil)).
Definition ten_quadrillion : pyfloat :=
  Finite (Decimal.DecimalExp (Decimal.Pos (Decimal.D1 Decimal.Nil)) Decimal.Nil
            (Decimal.Pos (Decimal.D1 (Decimal.D6 Decimal.Nil)))).
Definition small : pyfloat :=
  Finite (Decimal.DecimalExp (Decimal.Pos (Decimal.D1 Decimal.Nil))
            (Decimal.D5 Decimal.Nil)
            (Decimal.Neg (Decimal.D0 (Decimal.D7 Decimal.Nil)))).

Example json_dumps_ex :
  json_dumps (JDict [(codepoints "mark", JStr (codepoints "bar"));
                     (codepoints "n",
                      JList [JInt 1; JInt (-2); JNull; JBool true; JFloat half;
                             JFloat ten_quadrillion; JFloat small; JFloat NaN;
                             JFloat (Infinity true)])])
  = "{" +:+ DQ +:+ "mark" +:+ DQ +:+ ": " +:+ DQ +:+ "bar" +:+ DQ +:+ ", "
    +:+ DQ +:+ "n" +:+ DQ
    +:+ ": [1, -2, null, true, 0.5, 1e+16, 1.5e-07, NaN, -Infinity]}".
Proof. reflexivity. Qed.

(** A line feed, e with acute accent, the euro sign, a grinning face, the
    delete character and a backslash. *)
Example encode_basestring_ex :
  encode_basestring [97; 10; 233; 8364; 128512; 127; 98; 92]%N
  = DQ +:+ "a\n\u00e9\u20ac\ud83d\ude00\u007fb\\" +:+ DQ.
Proof. reflexivity. Qed.

Example json_dumps_indent_ex :
  json_dumps_indent 2 0 (JDict [(codepoints "a", JList [JInt 1; JInt 2]);
                                (codepoints "b", JDict [])])
  = "{" +:+ LF +:+ "  " +:+ DQ +:+ "a" +:+ DQ +:+ ": [" +:+ LF
    +:+ "    1," +:+ LF +:+ "    2" +:+ LF +:+ "  ]," +:+ LF
    +:+ "  " +:+ DQ +:+ "b" +:+ DQ +:+ ": {}" +:+ LF +:+ "}".
Proof. reflexivity. Qed.

Example json_loads_ex :
  json_loads "[1, 02]" = Raise ValueError ∧
  json_loads "[1, 2.]" = Raise ValueError ∧
  json_loads "[1, 2] x" = Raise ValueError ∧
  json_loads "[1, 2.5e3, -0.0, 1E-2, NaN, -Infinity]"
  = Ok (JList [JInt 1;
               JFloat (Finite (Decimal.DecimalExp
                                 (Decimal.Pos (Decimal.D2 Decimal.Nil))
                                 (Decimal.D5 Decimal.Nil)
                                 (Decimal.Pos (Decimal.D3 Decimal.Nil))));
               JFloat (Finite (Decimal.Decimal
                                 (Decimal.Neg (Decimal.D0 Decimal.Nil))
                                 (Decimal.D0 Decimal.Nil)));
               JFloat (Finite (Decimal.DecimalExp
                                 (Decimal.Pos (Decimal.D1 Decimal.Nil))
                                 Decimal.Nil
                                 (Decimal.Neg (Decimal.D2 Decimal.Nil))));
               JFloat NaN; JFloat (Infinity true)]) ∧
  json_loads " [ 1 , -0 , [ ] ] " = Ok (JList [JInt 1; JInt 0; JList []]) ∧
  json_loads (DQ +:+ "\u00E9\ud83d\ude00\ud83d\/" +:+ DQ)
  = Ok (JStr [233; 128512; 55357; 47]%N) ∧
  json_loads ("{" +:+ DQ +:+ "a" +:+ DQ +:+ ": 1, " +:+ DQ +:+ "b" +:+ DQ
              +:+ ": 2, " +:+ DQ +:+ "a" +:+ DQ +:+ ": 3}")
  = Ok (JDict [(codepoints "a", JInt 3); (codepoints "b", JInt 2)]).
Proof. repeat split. Qed.

(** The doubles nearest to some numerals, and Python's [==] on numbers,
    on NaN and on dicts. *)
Example py_eq_ex :
  float_value half = Dyadic 4503599627370496 (-53) ∧
  float_value ten_quadrillion = Dyadic 5000000000000000 1 ∧
  float_value (Finite (Decimal.DecimalExp (Decimal.Pos (Decimal.D1 Decimal.Nil))
                         Decimal.Nil
                         (Decimal.Pos (Decimal.D3 (Decimal.D0 (Decimal.D9
                                         Decimal.Nil))))))
  = Infinite false ∧
  py_eq (JInt 1) (JBool true) = true ∧
  py_eq (JFloat ten_quadrillion) (JInt 10000000000000000) = true ∧
  py_eq (JFloat half) (JFloat small) = false ∧
  py_eq (JFloat NaN) (JFloat NaN) = false ∧
  py_eq (JDict [(codepoints "a", JInt 1); (codepoints "b", JNull)])
        (JDict [(codepoints "b", JNull); (codepoints "a", JInt 1)]) = true.
Proof. vm_compute. repeat split. Qed.

Example html_visit_ex :
  fs_files (visited html_visit_altair_plot (cars_node None) html_translator)
    "/build/html/tut/intro-rst-altair-plot-0.vl.json"
  = Some ("{" +:+ DQ +:+ "mode" +:+ DQ +:+ ": " +:+ DQ +:+ "vega-lite" +:+ DQ
          +:+ ", " +:+ DQ +:+ "spec" +:+ DQ +:+ ": {" +:+ DQ +:+ "data" +:+ DQ
          +:+ ": {" +:+ DQ +:+ "url" +:+ DQ +:+ ": " +:+ DQ +:+ "cars.json"
          +:+ DQ +:+ "}}}") ∧
  fs_dirs (visited html_visit_altair_plot (cars_node None) html_translator)
    "/build/html/tut" = true.
Proof. vm_compute. split; reflexivity. Qed.

(** * More of the directive and the visitors *)

Section More.
Context `{H : Host} `{O : OS}.

(** X1: a block whose last statement is an assignment or an augmented
    assignment is accepted: the statements before it are executed, its
    right-hand side is evaluated in the namespaces they leave, and the
    assignment itself is never executed. *)
Theorem exec_then_eval_last_assign code body s v :
  ast_parse code = Ok (body ++ [s]) →
  (∃ targets, s = Assign targets v) ∨ (∃ target op, s = AugAssign target op v) →
  exec_then_eval code = '(g, l) ← exec_code body ∅ ∅; eval_code v g l.
Proof.
  intros Hp Hs. unfold exec_then_eval. rewrite Hp. simpl.
  rewrite body_pop_snoc. simpl.
  destruct Hs as [[t ->]|(t & op & ->)]; simpl;
    by destruct (exec_code body ∅ ∅) as [[g l]|].
Qed.

(** X2: an exception of the parser, of a statement of the block, of the
    evaluation of the last expression or of [to_dict] leaves [run] as it is,
    and the environment is as it was: no serial number is taken. *)
Theorem run_error_propagates self env e :
  ast_parse (code_of self) = Raise e ∨
  (∃ body s v,
     ast_parse (code_of self) = Ok (body ++ [s]) ∧ stmt_value s = Ok (Some v) ∧
     (exec_code body ∅ ∅ = Raise e ∨
      ∃ g l, exec_code body ∅ ∅ = Ok (g, l) ∧
        (eval_code v g l = Raise e ∨
         ∃ chart, eval_code v g l = Ok chart ∧ to_dict chart = Raise e))) →
  run self env = (Raise e, env).
Proof.
  intros [Hp|(body & s & v & Hp & Hv & Hrest)].
  - apply run_exec_raises. unfold exec_then_eval. by rewrite Hp.
  - assert (exec_then_eval (code_of self)
            = '(g, l) ← exec_code body ∅ ∅; eval_code v g l) as Hx.
    { unfold exec_then_eval. rewrite Hp. simpl. rewrite body_pop_snoc. simpl.
      rewrite Hv. simpl. by destruct (exec_code body ∅ ∅) as [[g l]|]. }
    destruct Hrest as [Hexec|(g & l & Hexec & [Heval|(chart & Heval & Hd)])].
    + apply run_exec_raises. by rewrite Hx, Hexec.
    + apply run_exec_raises. by rewrite Hx, Hexec.
    + rewrite Hexec in Hx. simpl in Hx. rewrite Heval in Hx.
      unfold run, mbind, M_bind, lift. fold (code_of self).
      by rewrite Hx, Hd.
Qed.

(** X3: [run] returns nodes exactly when neither [hide-code] nor
    [show-json] is given and the executor, [to_dict] and [os.path.relpath]
    succeed. *)
Theorem run_returns_iff self env :
  (∃ nodes env', run self env = (Ok nodes, env')) ↔
  has_key "hide-code" (options self) = false ∧
  has_key "show-json" (options self) = false ∧
  ∃ chart s rel,
    exec_then_eval (code_of self) = Ok chart ∧ to_dict chart = Ok s ∧
    os_path_relpath (os_path_dirname (document_source self)) (srcdir env) = Ok rel.
Proof.
  split.
  - intros (nodes & env' & Hrun).
    apply run_inv in Hrun as (Hh & Hj & chart & s & rel & Hc & Hd & Hrel & _).
    do 2 (split; [done|]). by exists chart, s, rel.
  - intros (Hh & Hj & chart & s & rel & Hc & Hd & Hrel).
    eexists _, _. by eapply run_ok.
Qed.

(** X4: once the executor and [to_dict] have succeeded, [show-json] makes
    [run] raise the name error of [specjson] with the environment untouched,
    and [hide-code] without [show-json] makes it raise the unbound local
    [source_literal] after the serial number was taken. *)
Theorem run_flag_failures self env chart s :
  exec_then_eval (code_of self) = Ok chart →
  to_dict chart = Ok s →
  (has_key "show-json" (options self) = true →
   run self env = (Raise (NameError "specjson"), env)) ∧
  (has_key "show-json" (options self) = false →
   has_key "hide-code" (options self) = true →
   run self env = (Raise (UnboundLocalError "source_literal"),
                   with_serial env (next_serial env + 1))).
Proof.
  intros Hc Hd. split.
  - intros Hj. by eapply run_show_json_raises.
  - intros Hj Hh. by eapply run_hide_code_raises.
Qed.

(** X5: whatever [run] returns or raises, all it changes in the
    environment is the counter of the category [altair-plot], which stays or
    grows by one. *)
Theorem run_env_frame self env r env' :
  run self env = (r, env') →
  srcdir env' = srcdir env ∧
  (∀ k, k ≠ serial_key → temp_data env' !! k = temp_data env !! k) ∧
  next_serial env ≤ next_serial env' ≤ next_serial env + 1.
Proof.
  assert (srcdir (with_serial env (next_serial env + 1)) = srcdir env ∧
          (∀ k, k ≠ serial_key →
                temp_data (with_serial env (next_serial env + 1)) !! k
                = temp_data env !! k) ∧
          next_serial env ≤ next_serial (with_serial env (next_serial env + 1))
            ≤ next_serial env + 1) as Hstep.
  { split; [done|]. split.
    - intros k Hk. unfold with_serial. simpl. by rewrite lookup_insert_ne.
    - rewrite next_serial_with_serial. lia. }
  assert (srcdir env = srcdir env ∧
          (∀ k, k ≠ serial_key → temp_data env !! k = temp_data env !! k) ∧
          next_serial env ≤ next_serial env ≤ next_serial env + 1) as Hsame.
  { repeat split; lia. }
  unfold run, mbind, M_bind, lift, mret, M_ret, new_serialno, specjson.
  destruct (exec_then_eval _); [|by intros [= _ <-]].
  destruct (to_dict _); [|by intros [= _ <-]].
  destruct (has_key "show-json" _); [by intros [= _ <-]|].
  destruct (has_key "hide-code" _); simpl; [by intros [= _ <-]|].
  destruct (os_path_relpath _ _); by intros [= _ <-].
Qed.


(** X6: the nodes [run] returns contain exactly one literal block; it
    holds the lines of the content joined by newlines, as raw source and as
    text, with the language [python], and it is the [source] of the plot
    node. *)
Theorem run_source_listing self env nodes env' :
  run self env = (Ok nodes, env') →
  let listing := {| rawsource := str_join LF (content self);
                    text := str_join LF (content self);
                    language := "python" |} in
  List.filter is_listing nodes = [LiteralBlock listing] ∧
  ∀ p, AltairPlot p ∈ nodes → source p = listing.
Proof.
  intros Hrun. apply run_inv in Hrun as (_ & _ & chart & s & rel & _ & _ & _ & _ & ->).
  cbv zeta. split.
  - by destruct (has_key "code-below" _).
  - by intros p ->%elem_of_plot.
Qed.

(** X7: [run] returns three nodes, of which exactly one is a plot node
    and exactly one a target, whose only id is the plot's target id; the
    plot node carries the [alt] option if and only if it was given, the
    path and the line of the directive, and the document's directory
    relative to the source directory. *)
Theorem run_plot_metadata self env nodes env' :
  run self env = (Ok nodes, env') →
  ∃ p,
    List.filter is_plot nodes = [AltairPlot p] ∧
    List.filter is_target nodes = [Target [target_id p]] ∧
    length nodes = 3 ∧
    alt p = options self !! "alt" ∧
    rst_source p = document_source self ∧
    rst_lineno p = lineno self ∧
    os_path_relpath (os_path_dirname (document_source self)) (srcdir env)
      = Ok (relpath p).
Proof.
  intros Hrun.
  apply run_inv in Hrun as (_ & _ & chart & s & rel & _ & _ & Hrel & _ & ->).
  exists (plot_of self (next_serial env) rel s). cbv zeta.
  by destruct (has_key "code-below" _).
Qed.

Lemma contains_String c x s :
  contains c (String x s) = Ascii.eqb x c || contains c s.
Proof. reflexivity. Qed.

Lemma contains_app c a b : contains c (a +:+ b) = contains c a || contains c b.
Proof.
  induction a as [|x a IH]; [done|].
  rewrite app_String. simpl. by rewrite IH, orb_assoc.
Qed.

Lemma contains_basename_go acc p :
  contains "/" acc = false → contains "/" (basename_go acc p) = false.
Proof.
  revert acc. induction p as [|c p IH]; intros acc Hacc; simpl; [done|].
  destruct (Ascii.eqb c "/") eqn:Hc; [by apply IH|].
  apply IH. rewrite contains_app, Hacc. simpl. by rewrite Hc.
Qed.

Lemma contains_basename p : contains "/" (os_path_basename p) = false.
Proof. by apply contains_basename_go. Qed.

Lemma contains_replace_dot s : contains "." (str_replace "." "-" s) = false.
Proof.
  induction s as [|c s IH]; simpl; [done|]. rewrite IH.
  by destruct (Ascii.eqb_spec c ".") as [->|]; [|destruct (Ascii.eqb_spec c ".")].
Qed.

Lemma contains_replace_slash s :
  contains "/" (str_replace "." "-" s) = contains "/" s.
Proof.
  induction s as [|c s IH]; simpl; [done|]. rewrite IH.
  by destruct (Ascii.eqb_spec c ".") as [->|].
Qed.

Lemma contains_digits c d :
  is_digit c = false → contains c (NilEmpty.string_of_uint d) = false.
Proof.
  intros Hc. induction d; cbn [NilEmpty.string_of_uint]; [done|..];
    rewrite contains_String, IHd;
    match goal with
    | |- Ascii.eqb ?x c || false = false =>
        destruct (Ascii.eqb_spec x c) as [<-|]; [discriminate Hc|done]
    end.
Qed.

Lemma contains_id c base infix n :
  is_digit c = false → contains c base = false → contains c infix = false →
  contains c (base +:+ infix +:+ str_nat n) = false.
Proof.
  intros Hc Hbase Hinfix. rewrite !contains_app, Hbase, Hinfix.
  by apply contains_digits.
Qed.

(** X8: the target id and the div id of a returned plot node contain
    neither a slash nor a dot, and they differ. *)
Theorem run_ids_clean self env nodes env' :
  run self env = (Ok nodes, env') →
  ∀ p, AltairPlot p ∈ nodes →
    contains "/" (target_id p) = false ∧ contains "." (target_id p) = false ∧
    contains "/" (div_id p) = false ∧ contains "." (div_id p) = false ∧
    target_id p ≠ div_id p.
Proof.
  intros Hrun p Hp.
  apply run_inv in Hrun as (_ & _ & chart & s & rel & _ & _ & _ & _ & ->).
  apply elem_of_plot in Hp as ->.
  unfold plot_of, rst_base_of. simpl.
  pose proof (contains_basename (document_source self)) as Hbase.
  rewrite <- contains_replace_slash in Hbase.
  pose proof (contains_replace_dot (os_path_basename (document_source self)))
    as Hdot.
  repeat split; try (by apply contains_id).
  intros Heq%(inj (String.app _)).
  cbv -[str_nat String.append] in Heq. discriminate Heq.
Qed.


Lemma run_plot_inv self env nodes env' p :
  run self env = (Ok nodes, env') → AltairPlot p ∈ nodes →
  ∃ chart s rel,
    exec_then_eval (code_of self) = Ok chart ∧ to_dict chart = Ok s ∧
    os_path_relpath (os_path_dirname (document_source self)) (srcdir env) = Ok rel ∧
    next_serial env' = next_serial env + 1 ∧
    p = plot_of self (next_serial env) rel s.
Proof.
  intros Hrun Hp.
  apply run_inv in Hrun as (_ & _ & chart & s & rel & Hc & Hd & Hrel & -> & ->).
  apply elem_of_plot in Hp as ->. exists chart, s, rel.
  by rewrite next_serial_with_serial.
Qed.

Lemma plot_of_div_id_clean self n rel s :
  contains "/" (div_id (plot_of self n rel s)) = false.
Proof.
  unfold plot_of, rst_base_of. simpl. apply contains_id; [done| |done].
  rewrite contains_replace_slash. apply contains_basename.
Qed.

Lemma startswith_slash_contains s :
  contains "/" s = false → startswith_slash s = false.
Proof. destruct s as [|c s]; [done|]. simpl. by destruct (Ascii.eqb c "/"). Qed.

(** X9: the HTML visitor never returns: it ends in [SkipNode] or in an
    [OSError], and leaves the output directory setting and the catalogue
    alone.  When it ends in [SkipNode] it has appended exactly one fragment,
    the template filled with the div id and the artifact's file name, and
    the artifact holds [json.dumps] of the mode tag and the node's
    specification; when the operating system refused, nothing is appended.
    [os.makedirs] is called only for a directory that does not exist: where
    it exists, the file system is as the write left it. *)
Theorem html_visit_effects node tr r tr' :
  html_visit_altair_plot node tr = (r, tr') →
  builder_outdir tr' = builder_outdir tr ∧ catalog tr' = catalog tr ∧
  ((r = Raise SkipNode ∧
    body tr' = body tr ++ [VGL_TEMPLATE (div_id node) (div_id node +:+ ".vl.json")] ∧
    fs_files tr' (artifact_path tr node) = Some (json_dumps (embed_payload node)))
   ∨ (r = Raise OSError ∧ body tr' = body tr)) ∧
  (exists_at (artifact_dir tr node) (filesystem tr) = true →
   filesystem tr'
   = (write_at (artifact_path tr node) (json_dumps (embed_payload node))
        (filesystem tr)).2).
Proof.
  intros Hvisit.
  destruct (html_visit_inv _ _ _ _ Hvisit) as (Hout & Hcat & Hcases).
  do 3 (split; [done|]).
  intros Hex. revert Hvisit.
  unfold html_visit_altair_plot, mbind, M_bind, mret, M_ret, os_path_exists,
    os_makedirs, write_file, os_call, body_append, raise.
  fold (artifact_dir tr node) (artifact_name node) (embed_payload node).
  rewrite Hex. cbn [negb filesystem builder_outdir body catalog].
  fold (artifact_path tr node).
  by destruct (write_at _ _ _) as [[] w]; intros [= <- <-].
Qed.

Lemma string_app_inj_r (a b s : string) : a +:+ s = b +:+ s → a = b.
Proof.
  revert b. induction a as [|x a IH]; intros [|y b] Heq; [done|..].
  - apply (f_equal String.length) in Heq.
    rewrite !string_length_app in Heq. simpl in Heq. lia.
  - apply (f_equal String.length) in Heq.
    rewrite !string_length_app in Heq. simpl in Heq. lia.
  - rewrite !app_String in Heq. injection Heq as -> Heq. f_equal. by apply IH.
Qed.



Lemma basename_go_no_slash acc f :
  contains "/" f = false → basename_go acc f = acc +:+ f.
Proof.
  revert acc. induction f as [|c f IH]; intros acc Hf; simpl.
  - by rewrite string_app_empty_r.
  - rewrite contains_String in Hf. apply orb_false_iff in Hf as [Hc Hf].
    rewrite Hc, IH by done. by rewrite string_app_assoc.
Qed.

Lemma basename_go_app acc p f :
  basename_go acc (p +:+ String "/" f) = basename_go "" f.
Proof.
  revert acc. induction p as [|c p IH]; intros acc.
  - reflexivity.
  - rewrite app_String. simpl. by destruct (Ascii.eqb c "/").
Qed.

Lemma rev_app_head s acc c r :
  String.rev_app s acc = String c r →
  (s = "" ∧ acc = String c r) ∨ ∃ p, s = p +:+ String c "".
Proof.
  revert acc. induction s as [|x s IH]; intros acc Heq; simpl in Heq.
  - by left.
  - right. destruct (IH _ Heq) as [[-> [= -> _]]|[p ->]].
    + by exists "".
    + by exists (String x p).
Qed.

Lemma endswith_slash_inv d : endswith_slash d = true → ∃ p, d = p +:+ "/".
Proof.
  unfold endswith_slash, String.rev.
  destruct (String.rev_app d "") as [|c r] eqn:Hrev; [done|].
  intros Hc%Ascii.eqb_eq. subst c.
  destruct (rev_app_head _ _ _ _ Hrev) as [[_ [=]]|[p ->]]. by exists p.
Qed.

Lemma basename_join d f :
  contains "/" f = false → os_path_basename (os_path_join d f) = f.
Proof.
  intros Hf. unfold os_path_join, os_path_basename.
  rewrite (startswith_slash_contains f Hf).
  destruct d as [|x d]; [by apply basename_go_no_slash|].
  cbn [is_empty orb].
  destruct (endswith_slash (String x d)) eqn:Hend.
  - apply endswith_slash_inv in Hend as [p ->].
    rewrite string_app_assoc. change ("/" +:+ f) with (String "/" f).
    rewrite basename_go_app. by apply basename_go_no_slash.
  - change ("/" +:+ f) with (String "/" f).
    rewrite basename_go_app. by apply basename_go_no_slash.
Qed.

(** X13: in one build, the plot nodes of two directives that return have
    different artifact paths, whatever the output directories and relative
    paths are. *)
Theorem build_artifacts_distinct ds env i j ni nj pi pj tri trj :
  i < j →
  (build H ds env).1 !! i = Some (Ok ni) →
  (build H ds env).1 !! j = Some (Ok nj) →
  AltairPlot pi ∈ ni → AltairPlot pj ∈ nj →
  artifact_path tri pi ≠ artifact_path trj pj.
Proof.
  intros Hij Hi Hj Hpi Hpj.
  destruct (build_lookup_pair ds env i j _ _ Hij Hi Hj)
    as (di & dj & envi & envi' & envj & envj' & _ & _ & Hri & Hrj & Hle).
  destruct (run_plot_inv _ _ _ _ _ Hri Hpi)
    as (ci & si & reli & _ & _ & _ & Hnext & ->).
  destruct (run_plot_inv _ _ _ _ _ Hrj Hpj)
    as (cj & sj & relj & _ & _ & _ & _ & ->).
  intros Heq. apply (f_equal os_path_basename) in Heq.
  unfold artifact_path in Heq.
  rewrite !basename_join in Heq
    by (unfold artifact_name; rewrite contains_app, plot_of_div_id_clean; done).
  unfold artifact_name in Heq. apply string_app_inj_r in Heq.
  unfold plot_of in Heq. cbn [div_id] in Heq.
  rewrite !plot_id_shape in Heq. apply dash_number_inj in Heq. lia.
Qed.


End More.

(** * The further theorems on the worked examples *)

Lemma exec_then_eval_last_assign_witness :
  @exec_then_eval MiniPy.host (code_of (intro_rst ∅ assign_lines))
  = '(g, l) ← @exec_code MiniPy.host [ImportFrom "altair" ["Chart"]] ∅ ∅;
    @eval_code MiniPy.host (Call (Name "Chart") [Str "cars.json"]) g l.
Proof.
  apply (@exec_then_eval_last_assign MiniPy.host
           (code_of (intro_rst ∅ assign_lines))
           [ImportFrom "altair" ["Chart"]]
           (Assign [Name "chart"] (Call (Name "Chart") [Str "cars.json"]))).
  - vm_compute. reflexivity.
  - left. exists [Name "chart"]. reflexivity.
Defined.

Lemma run_error_propagates_witness :
  @run MiniPy.host (intro_rst ∅ ["chart"]) env0
  = (Raise (NameError "chart"), env0).
Proof.
  apply (@run_error_propagates MiniPy.host (intro_rst ∅ ["chart"]) env0).
  right. exists [], (Expr (Name "chart")), (Name "chart").
  split; [vm_compute; reflexivity|]. split; [reflexivity|].
  right. exists ∅, ∅. split; [reflexivity|]. left. reflexivity.
Defined.

Lemma run_flag_failures_witness :
  (has_key "show-json" (options (intro_rst hide_code chart_lines)) = true →
   @run MiniPy.host (intro_rst hide_code chart_lines) env0
   = (Raise (NameError "specjson"), env0)) ∧
  (has_key "show-json" (options (intro_rst hide_code chart_lines)) = false →
   has_key "hide-code" (options (intro_rst hide_code chart_lines)) = true →
   @run MiniPy.host (intro_rst hide_code chart_lines) env0
   = (Raise (UnboundLocalError "source_literal"),
      with_serial env0 (next_serial env0 + 1))).
Proof.
  apply (@run_flag_failures MiniPy.host (intro_rst hide_code chart_lines) env0
           (MiniPy.VChart "cars.json") cars_spec);
    vm_compute; reflexivity.
Defined.

Lemma run_env_frame_witness :
  srcdir (with_serial env0 1) = srcdir env0 ∧
  (∀ k, k ≠ serial_key →
        temp_data (with_serial env0 1) !! k = temp_data env0 !! k) ∧
  next_serial env0 ≤ next_serial (with_serial env0 1) ≤ next_serial env0 + 1.
Proof.
  apply (@run_env_frame MiniPy.host (intro_rst hide_code chart_lines) env0
           (Raise (UnboundLocalError "source_literal"))).
  vm_compute. reflexivity.
Defined.

Lemma run_source_listing_witness :
  let listing := {| rawsource := str_join LF (content (intro_rst ∅ chart_lines));
                    text := str_join LF (content (intro_rst ∅ chart_lines));
                    language := "python" |} in
  List.filter is_listing chart_nodes = [LiteralBlock listing] ∧
  ∀ p, AltairPlot p ∈ chart_nodes → source p = listing.
Proof.
  apply (@run_source_listing MiniPy.host (intro_rst ∅ chart_lines) env0
           chart_nodes (with_serial env0 1)).
  vm_compute. reflexivity.
Defined.

Lemma run_plot_metadata_witness :
  ∃ p,
    List.filter is_plot chart_nodes = [AltairPlot p] ∧
    List.filter is_target chart_nodes = [Target [target_id p]] ∧
    length chart_nodes = 3 ∧
    alt p = options (intro_rst ∅ chart_lines) !! "alt" ∧
    rst_source p = document_source (intro_rst ∅ chart_lines) ∧
    rst_lineno p = lineno (intro_rst ∅ chart_lines) ∧
    @os_path_relpath MiniPy.host
      (os_path_dirname (document_source (intro_rst ∅ chart_lines))) (srcdir env0)
      = Ok (relpath p).
Proof.
  apply (@run_plot_metadata MiniPy.host (intro_rst ∅ chart_lines) env0
           chart_nodes (with_serial env0 1)).
  vm_compute. reflexivity.
Defined.

Lemma run_ids_clean_witness :
  contains "/" (target_id (intro_plot ∅ chart_lines 0)) = false ∧
  contains "." (target_id (intro_plot ∅ chart_lines 0)) = false ∧
  contains "/" (div_id (intro_plot ∅ chart_lines 0)) = false ∧
  contains "." (div_id (intro_plot ∅ chart_lines 0)) = false ∧
  target_id (intro_plot ∅ chart_lines 0) ≠ div_id (intro_plot ∅ chart_lines 0).
Proof.
  apply (@run_ids_clean MiniPy.host (intro_rst ∅ chart_lines) env0
           chart_nodes (with_serial env0 1)).
  - vm_compute. reflexivity.
  - apply list_elem_of_lookup. exists 2. reflexivity.
Defined.

Lemma html_visit_effects_witness :
  let tr' := visited html_visit_altair_plot (cars_node None) html_translator in
  builder_outdir tr' = builder_outdir html_translator ∧
  catalog tr' = catalog html_translator ∧
  ((@Raise unit SkipNode = Raise SkipNode ∧
    body tr' = body html_translator
               ++ [VGL_TEMPLATE (div_id (cars_node None))
                     (div_id (cars_node None) +:+ ".vl.json")] ∧
    fs_files tr' (artifact_path html_translator (cars_node None))
      = Some (json_dumps (embed_payload (cars_node None))))
   ∨ (@Raise unit SkipNode = Raise OSError ∧ body tr' = body html_translator)) ∧
  (exists_at (artifact_dir html_translator (cars_node None))
     (filesystem html_translator) = true →
   filesystem tr'
   = (write_at (artifact_path html_translator (cars_node None))
        (json_dumps (embed_payload (cars_node None)))
        (filesystem html_translator)).2).
Proof.
  apply (html_visit_effects (cars_node None) html_translator (Raise SkipNode)).
  vm_compute. reflexivity.
Defined.


Lemma build_artifacts_distinct_witness :
  artifact_path html_translator (intro_plot ∅ chart_lines 0)
  ≠ artifact_path text_translator (intro_plot code_below assign_lines 1).
Proof.
  apply (@build_artifacts_distinct MiniPy.host MemFS.os
           [intro_rst ∅ chart_lines; intro_rst code_below assign_lines] env0 0 1
           chart_nodes
           [intro_anchor assign_lines 1;
            AltairPlot (intro_plot code_below assign_lines 1);
            intro_listing assign_lines]).
  - lia.
  - vm_compute. reflexivity.
  - vm_compute. reflexivity.
  - apply list_elem_of_lookup. exists 2. reflexivity.
  - apply list_elem_of_lookup. exists 1. reflexivity.
Defined.


